(** * relieve.in — the 26AS browser tool (static/js/script.js)

    A shallow embedding of the page script: the JavaScript values it
    handles, the global variables and the part of the DOM it writes, and
    every handler as a function on that world.  The [fetch] calls, the
    PDF.js loader, the clock and [localStorage] are inputs of the handlers. *)

From Stdlib Require Import ZArith String Ascii List Lia.
From Stdlib Require QArith Lqa.
From stdpp Require Import base gmap strings list fin_maps pretty.

Open Scope Z_scope.

(** ** JavaScript values *)

Module JS.

(** A Number is a binary64 value: NaN, an infinity, or the finite value
    [(-1)^neg * m * 2^e]; zero has a sign as well.  What a decimal text
    denotes, in a JSON text or for [parseFloat], is the nearest such value
    ([decimal]). *)
Inductive number :=
| NaN
| Inf (neg : bool)
| Fin (neg : bool) (m : N) (e : Z).

Definition zero : number := Fin false 0 0.

Definition num_is_zero (x : number) : bool :=
  match x with Fin _ m _ => (m =? 0)%N | _ => false end.

Definition num_is_nan (x : number) : bool :=
  match x with NaN => true | _ => false end.

(** An integer as a Number, exact up to [2^53]. *)
Definition of_Z (z : Z) : number := Fin (z <? 0) (Z.abs_N z) 0.

Definition len (s : string) : Z := Z.of_nat (String.length s).

(** *** Rounding to binary64

    A positive rational is a pair [a], [b] with [0 < a] and [0 < b],
    read as [a / b]. *)

(** [base^p <= a / b] *)
Definition power_le (base p a b : Z) : bool :=
  if 0 <=? p then b * base ^ p <=? a else b <=? a * base ^ (- p).

(** The floor of the binary logarithm of [a / b]: [Z.log2] is the floor
    on integers, so that it is the difference of the two or one less. *)
Definition log2_floor (a b : Z) : Z :=
  let g := Z.log2 a - Z.log2 b in
  if power_le 2 g a b then g else g - 1.

(** The floor of the decimal logarithm of [a / b], looked for around
    [log2_floor a b * log10 2]. *)
Definition log10_floor (a b : Z) : Z :=
  let t := log2_floor a b * 30103 / 100000 in
  if power_le 10 (t + 2) a b then t + 2
  else if power_le 10 (t + 1) a b then t + 1
  else if power_le 10 t a b then t
  else t - 1.

(** The integer nearest to [a / b], the even one of two. *)
Definition round_half_even (a b : Z) : Z :=
  let q := a / b in
  let r := 2 * (a mod b) in
  if r <? b then q
  else if b <? r then q + 1
  else if Z.even q then q else q + 1.

(** [n * 2^u] with [n] odd, or zero. *)
Definition normal (neg : bool) (n u : Z) : number :=
  if n =? 0 then Fin neg 0 0
  else
    let k := Z.log2 (Z.land n (- n)) in
    Fin neg (Z.to_N (Z.shiftr n k)) (u + k).

(** The Number value of [a / b] with [0 <= a]: round to nearest, ties to
    even, on 53 bits the last of which weighs [2^-1074] at least; from
    [2^1024] on the result is an infinity. *)
Definition binary64 (neg : bool) (a b : Z) : number :=
  if a =? 0 then Fin neg 0 0
  else
    let u := Z.max (log2_floor a b - 52) (-1074) in
    let n := if 0 <=? u then round_half_even a (b * 2 ^ u)
             else round_half_even (a * 2 ^ (- u)) b in
    if (0 <=? u) && (2 ^ 1024 <=? n * 2 ^ u) then Inf neg
    else normal neg n u.

(** The Number value of [m * 10^e] with [0 <= m].  A value of [d] digits
    is [10^(d - 1 + e)] at least and less than [10^(d + e)]: from [10^309]
    on it is beyond [2^1024], and below [10^-324] it is less than half of
    [2^-1074]. *)
Definition decimal (neg : bool) (m e : Z) : number :=
  if m =? 0 then Fin neg 0 0
  else
    let d := len (pretty m) in
    if 310 <=? d + e then Inf neg
    else if d + e <=? -324 then Fin neg 0 0
    else if 0 <=? e then binary64 neg (m * 10 ^ e) 1
    else binary64 neg m (10 ^ (- e)).

(** [m * 2^e] as a fraction. *)
Definition fraction (m : N) (e : Z) : Z * Z :=
  if 0 <=? e then (Z.of_N m * 2 ^ e, 1) else (Z.of_N m, 2 ^ (- e)).

(** A finite value read as the binary64 value nearest to it: itself when
    it is one, with [m] odd. *)
Definition rounded (x : number) : number :=
  match x with
  | Fin neg m e => let '(a, b) := fraction m e in binary64 neg a b
  | _ => x
  end.

Definition number_eqb (x y : number) : bool :=
  match x, y with
  | NaN, NaN => true
  | Inf a, Inf b => Bool.eqb a b
  | Fin a m e, Fin b m' e' => Bool.eqb a b && (m =? m')%N && (e =? e')
  | _, _ => false
  end.

(** *** Number::toString

    The digits are the fewest that denote the value: the least [k] with an
    integer [s] of [k] digits and a [p] such that the Number value of
    [s * 10^p] is [x]; of two such [s] the one nearer to [x], the even one
    if they are as near.  [a / b] is [x] and [10^(n0 - 1) <= x < 10^n0];
    the candidates with [k] digits are the two integers around
    [x / 10^(n0 - k)].  Seventeen digits always do. *)
Fixpoint shortest_from (fuel : nat) (k : Z) (x : number) (a b n0 : Z)
  : Z * Z :=
  let p := n0 - k in
  let '(c, d) := if 0 <=? p then (a, b * 10 ^ p) else (a * 10 ^ (- p), b) in
  let lo := c / d in
  let hi := lo + 1 in
  let r := 2 * (c mod d) in
  let is_x s := number_eqb (decimal false s p) x in
  match fuel with
  | O => (if r <? d then lo else hi, p)
  | S fuel' =>
      if is_x lo then
        if is_x hi then
          (if r <? d then lo
           else if d <? r then hi
           else if Z.even lo then lo else hi, p)
        else (lo, p)
      else if is_x hi then (hi, p)
      else shortest_from fuel' (k + 1) x a b n0
  end.

(** [(s, p)]: the value [m * 2^e], not zero, is shown as [s * 10^p]. *)
Definition shortest (m : N) (e : Z) : Z * Z :=
  let '(a, b) := fraction m e in
  shortest_from 17 1 (binary64 false a b) a b (log10_floor a b + 1).

Fixpoint zeros (n : nat) : string :=
  match n with O => "" | S n' => String "0" (zeros n') end.

Fixpoint drop_zeros (s : string) : string :=
  match s with
  | String "0" r => drop_zeros r
  | _ => s
  end.

Definition strip_trailing_zeros (s : string) : string :=
  String.rev (drop_zeros (String.rev s)).

Definition sub (from count : Z) (s : string) : string :=
  substring (Z.to_nat from) (Z.to_nat count) s.

Definition exp_suffix (n : Z) : string :=
  "e" +:+ (if 0 <=? n - 1 then "+" else "-") +:+ pretty (Z.abs (n - 1)).

(** Number::toString, radix 10, on the digit string [s] (no trailing zero)
    of a positive value [0.s * 10^n]. *)
Definition digits_toString (s : string) (n : Z) : string :=
  let k := len s in
  if (k <=? n) && (n <=? 21) then s +:+ zeros (Z.to_nat (n - k))
  else if (0 <? n) && (n <=? 21) then sub 0 n s +:+ "." +:+ sub n (k - n) s
  else if (-6 <? n) && (n <=? 0) then "0." +:+ zeros (Z.to_nat (- n)) +:+ s
  else if k =? 1 then s +:+ exp_suffix n
  else sub 0 1 s +:+ "." +:+ sub 1 (k - 1) s +:+ exp_suffix n.

Definition Number_toString (x : number) : string :=
  match x with
  | NaN => "NaN"
  | Inf neg => if neg then "-Infinity" else "Infinity"
  | Fin neg m e =>
      if (m =? 0)%N then "0"
      else
        match rounded x with
        | Fin _ m' e' =>
            if (m' =? 0)%N then "0"
            else
              let '(s, p) := shortest m' e' in
              let d := pretty s in
              (if neg then "-" else "")
                +:+ digits_toString (strip_trailing_zeros d) (len d + p)
        | _ => if neg then "-Infinity" else "Infinity"
        end
  end.

(** The integer [n] for which [n / 10^f] is closest to [a * 10^e]
    ([0 <= a]), the larger one on a tie. *)
Definition round_scaled (a e : Z) (f : Z) : Z :=
  if 0 <=? e + f then a * 10 ^ (e + f)
  else let d := 10 ^ (- (e + f)) in (2 * a + d) / (2 * d).

(** The digits of [n] with a point before the last [f] of them. *)
Definition fixed_digits (n : Z) (f : nat) : string :=
  match f with
  | O => pretty n
  | _ =>
      let m := pretty n in
      let m := zeros (S f - String.length m) +:+ m in
      let k := String.length m in
      substring 0 (k - f) m +:+ "." +:+ substring (k - f) f m
  end.

(** Number.prototype.toFixed(f): the integer [n] for which [n / 10^f] is
    closest to the value itself, the larger one of two; from [10^21] on,
    Number::toString.  Negative zero is not less than zero. *)
Definition toFixed (f : nat) (x : number) : string :=
  match rounded x with
  | Fin neg m e =>
      let '(a, b) := fraction m e in
      if 10 ^ 21 * b <=? a then Number_toString x
      else (if neg && negb (m =? 0)%N then "-" else "")
             +:+ fixed_digits ((2 * a * 10 ^ Z.of_nat f + b) / (2 * b)) f
  | _ => Number_toString x
  end.

(** Digit grouping of the locale en-IN on the reversed integer digits:
    the last three, then pairs. *)
Fixpoint group_pairs (l : list ascii) : list ascii :=
  match l with
  | a :: b :: r => ","%char :: a :: b :: group_pairs r
  | [a] => [","%char; a]
  | [] => []
  end.

Definition group_enIN (digits : string) : string :=
  let r := rev (list_ascii_of_string digits) in
  string_of_list_ascii
    (rev (match r with
          | a :: b :: c :: t => a :: b :: c :: group_pairs t
          | _ => r
          end)).

(** [x.toLocaleString('en-IN', { minimumFractionDigits: 2,
    maximumFractionDigits: 2 })], as the browsers' formatter does it: the
    decimal that is rounded at the second fraction digit, halves away
    from zero, is the shortest one that denotes the value, and a negative
    zero keeps its sign. *)
Definition toLocaleString_enIN_2 (x : number) : string :=
  match rounded x with
  | NaN => "NaN"
  | Inf neg => (if neg then "-" else "") +:+ "∞"
  | Fin neg m e =>
      let '(s, p) := if (m =? 0)%N then (0, 0) else shortest m e in
      let n := round_scaled s p 2 in
      (if neg then "-" else "")
        +:+ group_enIN (pretty (n / 100))
        +:+ "." +:+ sub 1 2 (pretty (100 + n mod 100))
  end.

(** *** parseFloat on strings *)

Definition is_digit (c : ascii) : bool :=
  let n := nat_of_ascii c in (48 <=? n)%nat && (n <=? 57)%nat.

(** StrWhiteSpaceChar, the white space and the line terminators of
    ECMAScript.  A string is kept as its UTF-8 bytes, as a string literal
    of this file is, so that a character beyond ASCII is two or three of
    them.  [is_ws] has the members within ASCII (TAB, LF, VT, FF, CR and
    the space), [is_ws2] U+00A0, and [is_ws3] U+1680, U+2000 to U+200A,
    U+2028, U+2029, U+202F, U+205F, U+3000 and U+FEFF. *)
Definition is_ws (c : ascii) : bool :=
  let n := nat_of_ascii c in
  ((9 <=? n)%nat && (n <=? 13)%nat) || (n =? 32)%nat.

Definition is_ws2 (c1 c2 : ascii) : bool :=
  (nat_of_ascii c1 =? 194)%nat && (nat_of_ascii c2 =? 160)%nat.

Definition is_ws3 (c1 c2 c3 : ascii) : bool :=
  let b1 := nat_of_ascii c1 in
  let b2 := nat_of_ascii c2 in
  let b3 := nat_of_ascii c3 in
  ((b1 =? 225) && (b2 =? 154) && (b3 =? 128))%nat
  || ((b1 =? 226) && (b2 =? 128)
      && (((128 <=? b3) && (b3 <=? 138))
          || (b3 =? 168) || (b3 =? 169) || (b3 =? 175)))%nat
  || ((b1 =? 226) && (b2 =? 129) && (b3 =? 159))%nat
  || ((b1 =? 227) && (b2 =? 128) && (b3 =? 128))%nat
  || ((b1 =? 239) && (b2 =? 187) && (b3 =? 191))%nat.

(** The string without the white space it starts with. *)
Fixpoint skip_ws (s : string) : string :=
  match s with
  | String c1 r1 =>
      if is_ws c1 then skip_ws r1
      else
        match r1 with
        | String c2 r2 =>
            if is_ws2 c1 c2 then skip_ws r2
            else
              match r2 with
              | String c3 r3 => if is_ws3 c1 c2 c3 then skip_ws r3 else s
              | EmptyString => s
              end
        | EmptyString => s
        end
  | EmptyString => s
  end.

Fixpoint take_digits (s : string) : string * string :=
  match s with
  | String c r =>
      if is_digit c then let '(d, t) := take_digits r in (String c d, t)
      else (EmptyString, s)
  | EmptyString => (EmptyString, EmptyString)
  end.

Fixpoint digits_value (acc : Z) (s : string) : Z :=
  match s with
  | String c r => digits_value (10 * acc + (Z.of_nat (nat_of_ascii c) - 48)) r
  | EmptyString => acc
  end.

Definition take_sign (s : string) : bool * string :=
  match s with
  | String "-" r => (true, r)
  | String "+" r => (false, r)
  | _ => (false, s)
  end.

(** The value of the ExponentPart the string starts with, 0 without one. *)
Definition parse_exponent (s : string) : Z :=
  match s with
  | String c r =>
      if (c =? "e")%char || (c =? "E")%char then
        let '(neg, r') := take_sign r in
        let '(ds, _) := take_digits r' in
        if (ds =? "")%string then 0
        else if neg then - digits_value 0 ds else digits_value 0 ds
      else 0
  | EmptyString => 0
  end.

(** The Number value of the longest prefix of the trimmed string that is
    a StrDecimalLiteral, NaN without one. *)
Definition parseFloat_string (input : string) : number :=
  let '(neg, s) := take_sign (skip_ws input) in
  if String.prefix "Infinity" s then Inf neg
  else
    let '(ip, r1) := take_digits s in
    let '(fp, r2) :=
      match r1 with
      | String "." t => take_digits t
      | _ => (EmptyString, r1)
      end in
    if (ip =? "")%string && (fp =? "")%string then NaN
    else
      decimal neg (digits_value 0 (ip +:+ fp)) (parse_exponent r2 - len fp).

(** *** Primitive values, as JSON carries them in object fields *)

Inductive prim :=
| PUndefined
| PNull
| PBool (b : bool)
| PNum (n : number)
| PStr (s : string).

Definition ToBoolean (v : prim) : bool :=
  match v with
  | PUndefined | PNull => false
  | PBool b => b
  | PNum n => negb (num_is_zero n || num_is_nan n)
  | PStr s => negb (s =? "")%string
  end.

Definition ToString (v : prim) : string :=
  match v with
  | PUndefined => "undefined"
  | PNull => "null"
  | PBool b => if b then "true" else "false"
  | PNum n => Number_toString n
  | PStr s => s
  end.

(** [a || b] *)
Definition logical_or (a b : prim) : prim := if ToBoolean a then a else b.

(** [v !== 0] *)
Definition strict_ne_zero (v : prim) : bool :=
  match v with PNum n => negb (num_is_zero n) | _ => true end.

Definition parseFloat (v : prim) : number := parseFloat_string (ToString v).

(** An object with scalar fields; reading an absent property gives
    [undefined]. *)
Abbreviation obj := (gmap string prim).

Definition get (o : obj) (k : string) : prim := default PUndefined (o !! k).

(** A value that is an object or a primitive ([assessee_info] may be null). *)
Inductive value :=
| VPrim (p : prim)
| VObj (o : obj).

Definition truthy (v : value) : bool :=
  match v with VPrim p => ToBoolean p | VObj _ => true end.

(** Property read on a value that is not null or undefined. *)
Definition prop (v : value) (k : string) : prim :=
  match v with VObj o => get o k | VPrim _ => PUndefined end.

(** [s.toLowerCase()] on A-Z; no character outside A-Z has one of the
    characters of .pdf for its lower-case form. *)
Definition lower (c : ascii) : ascii :=
  let n := nat_of_ascii c in
  if (65 <=? n)%nat && (n <=? 90)%nat then ascii_of_nat (n + 32) else c.

Fixpoint toLowerCase (s : string) : string :=
  match s with
  | String c r => String (lower c) (toLowerCase r)
  | EmptyString => EmptyString
  end.

(** [s.endsWith(searchString)] *)
Definition endsWith (searchString s : string) : bool :=
  let n := String.length s in
  let k := String.length searchString in
  (k <=? n)%nat && (substring (n - k) k s =? searchString)%string.

(** The text a template literal or [textContent] shows for an integer. *)
Definition text_of_Z (z : Z) : string := ToString (PNum (of_Z z)).

End JS.

Import JS.

(** ** Global variables of the script *)

Record File := { file_name : string; file_size : Z }.

Record ProcessingStats := {
  startTime : Z;
  endTime : Z;
  pageCount : Z }.

Record ExtractedData := {
  assessee : value;
  transactions : list obj;
  processingStats : ProcessingStats }.

Record UserData := {
  totalFilesProcessed : Z;
  todayFilesProcessed : Z;
  lastResetDate : string }.

(** What PDF.js hands back for a document it could open. *)
Record PdfDocument := { numPages : Z }.

Record Globals := {
  selectedFile : option File;
  extractedData : ExtractedData;
  pdfDocument : option PdfDocument;
  currentPage : Z;
  totalPages : Z;
  userData : UserData }.

(** The object literal the script assigns to [extractedData] when it is
    declared, in [handleFile] and in [resetTool]. *)
Definition blankAssessee : obj :=
  <["name" := PStr ""]>
    (<["pan" := PStr ""]>
       (<["financialYear" := PStr ""]>
          (<["address" := PStr ""]>
             (<["assessmentYear" := PStr ""]> ∅)))).

Definition blankExtractedData : ExtractedData :=
  {| assessee := VObj blankAssessee;
     transactions := [];
     processingStats := {| startTime := 0; endTime := 0; pageCount := 0 |} |}.

(** ** The part of the document the script writes

    Spinners, the progress bar, CSS classes of the tabs and the scroll
    listener are left out; a text that is a float formatted for display
    ([modalTime]) or formatted in the browser's own locale (the two usage
    counters) is kept as the number it shows. *)

Inductive Row :=
| PlaceholderRow
| DataRow (values : list string)
| InfoRow (total : Z).

Inductive Viewer :=
| ViewerMarkup
| ViewerCanvas (pageNumber : Z)
| ViewerLoadError
| ViewerNoPdf.

Inductive PdfInfo :=
| PdfInfoMarkup
| PdfInfoFile (file : File)
| PdfInfoNone.

Record Buttons := {
  parseBtn_disabled : bool;
  downloadBtn_disabled : bool;
  confirmDownload_disabled : bool;
  prevPage_disabled : bool;
  nextPage_disabled : bool }.

Record PdfPane := {
  pdfViewer : Viewer;
  pdfInfo : PdfInfo;
  pdfControls_shown : bool;
  pageInfo : string }.

Record ExcelPane := {
  excelHeader : list string;
  excelBody : list Row;
  excelInfo : string;
  excelRowInfo : string }.

Record Modal := {
  reportModal_shown : bool;
  modalPageCount : string;
  modalTransactionCount : string;
  modalTime : Z;
  modalFileSize : string }.

Record AssesseePanel := {
  assesseeInfo_visible : bool;
  assesseeName : string;
  assesseePAN : string;
  assesseeFY : string }.

Record Summary := {
  fileCountEl : string;
  summaryFileCount : string;
  summaryTransactionCount : string;
  transactionCounter_shown : bool;
  counterValue : string;
  totalFilesCounter : Z;
  todayFilesCounter : Z }.

Record Dom := {
  buttons : Buttons;
  pdfPane : PdfPane;
  excelPane : ExcelPane;
  modal : Modal;
  assesseePanel : AssesseePanel;
  summary : Summary;
  activePreviewTab : nat }.

(** ** What a handler does to the outside *)

Module Request.

(** The object [downloadExcelFile] serialises as the request body. *)
Record DownloadData := {
  assessee_info : value;
  transactions : list obj }.

(** The keys of the JSON text of the body: [JSON.stringify] leaves out a
    property whose value is [undefined]. *)
Definition keys (d : DownloadData) : list string :=
  match assessee_info d with
  | VPrim PUndefined => []
  | _ => ["assessee_info"]
  end ++ ["transactions"].

Inductive Body :=
| FormData (file : File)
| JsonBody (downloadData : DownloadData).

End Request.

Inductive Effect :=
| Notification (message type : string)
| ConsoleError (label : string)
| Fetch (url : string) (body : Request.Body)
| AnchorClick (href download : string).

Record World := {
  js : Globals;
  document : Dom;
  localStorage : option UserData;
  out : list Effect }.

(** ** Field updates *)

Definition seq (f g : World -> World) : World -> World := fun w => g (f w).
Declare Scope world_scope.
Delimit Scope world_scope with world.
Notation "f ;; g" := (seq f g)
  (at level 100, g at level 200, right associativity) : world_scope.
Open Scope world_scope.

Definition with_js (f : Globals -> Globals) (w : World) : World :=
  {| js := f (js w); document := document w;
     localStorage := localStorage w; out := out w |}.

Definition with_document (f : Dom -> Dom) (w : World) : World :=
  {| js := js w; document := f (document w);
     localStorage := localStorage w; out := out w |}.

Definition set_localStorage (u : UserData) (w : World) : World :=
  {| js := js w; document := document w;
     localStorage := Some u; out := out w |}.

Definition emit (e : Effect) (w : World) : World :=
  {| js := js w; document := document w;
     localStorage := localStorage w; out := out w ++ [e] |}.

Definition set_selectedFile (v : option File) : World -> World :=
  with_js (fun g =>
    {| selectedFile := v; extractedData := extractedData g;
       pdfDocument := pdfDocument g; currentPage := currentPage g;
       totalPages := totalPages g; userData := userData g |}).

Definition with_extractedData (f : ExtractedData -> ExtractedData)
  : World -> World :=
  with_js (fun g =>
    {| selectedFile := selectedFile g; extractedData := f (extractedData g);
       pdfDocument := pdfDocument g; currentPage := currentPage g;
       totalPages := totalPages g; userData := userData g |}).

Definition set_pdfDocument (v : option PdfDocument) : World -> World :=
  with_js (fun g =>
    {| selectedFile := selectedFile g; extractedData := extractedData g;
       pdfDocument := v; currentPage := currentPage g;
       totalPages := totalPages g; userData := userData g |}).

Definition set_currentPage (v : Z) : World -> World :=
  with_js (fun g =>
    {| selectedFile := selectedFile g; extractedData := extractedData g;
       pdfDocument := pdfDocument g; currentPage := v;
       totalPages := totalPages g; userData := userData g |}).

Definition set_totalPages (v : Z) : World -> World :=
  with_js (fun g =>
    {| selectedFile := selectedFile g; extractedData := extractedData g;
       pdfDocument := pdfDocument g; currentPage := currentPage g;
       totalPages := v; userData := userData g |}).

Definition set_userData (v : UserData) : World -> World :=
  with_js (fun g =>
    {| selectedFile := selectedFile g; extractedData := extractedData g;
       pdfDocument := pdfDocument g; currentPage := currentPage g;
       totalPages := totalPages g; userData := v |}).

Definition set_extractedData (v : ExtractedData) : World -> World :=
  with_extractedData (fun _ => v).

Definition set_assessee (v : value) : World -> World :=
  with_extractedData (fun d =>
    {| assessee := v; transactions := transactions d;
       processingStats := processingStats d |}).

Definition set_transactions (v : list obj) : World -> World :=
  with_extractedData (fun d =>
    {| assessee := assessee d; transactions := v;
       processingStats := processingStats d |}).

Definition with_processingStats (f : ProcessingStats -> ProcessingStats)
  : World -> World :=
  with_extractedData (fun d =>
    {| assessee := assessee d; transactions := transactions d;
       processingStats := f (processingStats d) |}).

Definition set_startTime (v : Z) : World -> World :=
  with_processingStats (fun p =>
    {| startTime := v; endTime := endTime p; pageCount := pageCount p |}).

Definition set_endTime (v : Z) : World -> World :=
  with_processingStats (fun p =>
    {| startTime := startTime p; endTime := v; pageCount := pageCount p |}).

Definition set_pageCount (v : Z) : World -> World :=
  with_processingStats (fun p =>
    {| startTime := startTime p; endTime := endTime p; pageCount := v |}).

Definition with_buttons (f : Buttons -> Buttons) : World -> World :=
  with_document (fun d =>
    {| buttons := f (buttons d); pdfPane := pdfPane d;
       excelPane := excelPane d; modal := modal d;
       assesseePanel := assesseePanel d; summary := summary d;
       activePreviewTab := activePreviewTab d |}).

Definition with_pdfPane (f : PdfPane -> PdfPane) : World -> World :=
  with_document (fun d =>
    {| buttons := buttons d; pdfPane := f (pdfPane d);
       excelPane := excelPane d; modal := modal d;
       assesseePanel := assesseePanel d; summary := summary d;
       activePreviewTab := activePreviewTab d |}).

Definition with_excelPane (f : ExcelPane -> ExcelPane) : World -> World :=
  with_document (fun d =>
    {| buttons := buttons d; pdfPane := pdfPane d;
       excelPane := f (excelPane d); modal := modal d;
       assesseePanel := assesseePanel d; summary := summary d;
       activePreviewTab := activePreviewTab d |}).

Definition with_modal (f : Modal -> Modal) : World -> World :=
  with_document (fun d =>
    {| buttons := buttons d; pdfPane := pdfPane d;
       excelPane := excelPane d; modal := f (modal d);
       assesseePanel := assesseePanel d; summary := summary d;
       activePreviewTab := activePreviewTab d |}).

Definition with_assesseePanel (f : AssesseePanel -> AssesseePanel)
  : World -> World :=
  with_document (fun d =>
    {| buttons := buttons d; pdfPane := pdfPane d;
       excelPane := excelPane d; modal := modal d;
       assesseePanel := f (assesseePanel d); summary := summary d;
       activePreviewTab := activePreviewTab d |}).

Definition with_summary (f : Summary -> Summary) : World -> World :=
  with_document (fun d =>
    {| buttons := buttons d; pdfPane := pdfPane d;
       excelPane := excelPane d; modal := modal d;
       assesseePanel := assesseePanel d; summary := f (summary d);
       activePreviewTab := activePreviewTab d |}).

(** [previewTabs[i].click()] *)
Definition clickPreviewTab (i : nat) : World -> World :=
  with_document (fun d =>
    {| buttons := buttons d; pdfPane := pdfPane d;
       excelPane := excelPane d; modal := modal d;
       assesseePanel := assesseePanel d; summary := summary d;
       activePreviewTab := i |}).

Definition set_parseBtn_disabled (v : bool) : World -> World :=
  with_buttons (fun b =>
    {| parseBtn_disabled := v; downloadBtn_disabled := downloadBtn_disabled b;
       confirmDownload_disabled := confirmDownload_disabled b;
       prevPage_disabled := prevPage_disabled b;
       nextPage_disabled := nextPage_disabled b |}).

Definition set_downloadBtn_disabled (v : bool) : World -> World :=
  with_buttons (fun b =>
    {| parseBtn_disabled := parseBtn_disabled b; downloadBtn_disabled := v;
       confirmDownload_disabled := confirmDownload_disabled b;
       prevPage_disabled := prevPage_disabled b;
       nextPage_disabled := nextPage_disabled b |}).

Definition set_confirmDownload_disabled (v : bool) : World -> World :=
  with_buttons (fun b =>
    {| parseBtn_disabled := parseBtn_disabled b;
       downloadBtn_disabled := downloadBtn_disabled b;
       confirmDownload_disabled := v;
       prevPage_disabled := prevPage_disabled b;
       nextPage_disabled := nextPage_disabled b |}).

Definition set_pageButtons (prev next : bool) : World -> World :=
  with_buttons (fun b =>
    {| parseBtn_disabled := parseBtn_disabled b;
       downloadBtn_disabled := downloadBtn_disabled b;
       confirmDownload_disabled := confirmDownload_disabled b;
       prevPage_disabled := prev;
       nextPage_disabled := next |}).

Definition set_pdfViewer (v : Viewer) : World -> World :=
  with_pdfPane (fun p =>
    {| pdfViewer := v; pdfInfo := pdfInfo p;
       pdfControls_shown := pdfControls_shown p; pageInfo := pageInfo p |}).

Definition set_pdfInfo (v : PdfInfo) : World -> World :=
  with_pdfPane (fun p =>
    {| pdfViewer := pdfViewer p; pdfInfo := v;
       pdfControls_shown := pdfControls_shown p; pageInfo := pageInfo p |}).

Definition set_pdfControls_shown (v : bool) : World -> World :=
  with_pdfPane (fun p =>
    {| pdfViewer := pdfViewer p; pdfInfo := pdfInfo p;
       pdfControls_shown := v; pageInfo := pageInfo p |}).

Definition set_pageInfo (v : string) : World -> World :=
  with_pdfPane (fun p =>
    {| pdfViewer := pdfViewer p; pdfInfo := pdfInfo p;
       pdfControls_shown := pdfControls_shown p; pageInfo := v |}).

Definition set_excelHeader (v : list string) : World -> World :=
  with_excelPane (fun e =>
    {| excelHeader := v; excelBody := excelBody e;
       excelInfo := excelInfo e; excelRowInfo := excelRowInfo e |}).

Definition set_excelBody (v : list Row) : World -> World :=
  with_excelPane (fun e =>
    {| excelHeader := excelHeader e; excelBody := v;
       excelInfo := excelInfo e; excelRowInfo := excelRowInfo e |}).

(** [excelBody.appendChild(row)] *)
Definition appendChild_excelBody (row : Row) : World -> World :=
  with_excelPane (fun e =>
    {| excelHeader := excelHeader e; excelBody := excelBody e ++ [row];
       excelInfo := excelInfo e; excelRowInfo := excelRowInfo e |}).

Definition set_excelInfo (v : string) : World -> World :=
  with_excelPane (fun e =>
    {| excelHeader := excelHeader e; excelBody := excelBody e;
       excelInfo := v; excelRowInfo := excelRowInfo e |}).

Definition set_excelRowInfo (v : string) : World -> World :=
  with_excelPane (fun e =>
    {| excelHeader := excelHeader e; excelBody := excelBody e;
       excelInfo := excelInfo e; excelRowInfo := v |}).

Definition set_reportModal_shown (v : bool) : World -> World :=
  with_modal (fun m =>
    {| reportModal_shown := v; modalPageCount := modalPageCount m;
       modalTransactionCount := modalTransactionCount m;
       modalTime := modalTime m; modalFileSize := modalFileSize m |}).

Definition set_fileCounts (v : string) : World -> World :=
  with_summary (fun s =>
    {| fileCountEl := v; summaryFileCount := v;
       summaryTransactionCount := summaryTransactionCount s;
       transactionCounter_shown := transactionCounter_shown s;
       counterValue := counterValue s;
       totalFilesCounter := totalFilesCounter s;
       todayFilesCounter := todayFilesCounter s |}).

Definition set_summaryTransactionCount (v : string) : World -> World :=
  with_summary (fun s =>
    {| fileCountEl := fileCountEl s; summaryFileCount := summaryFileCount s;
       summaryTransactionCount := v;
       transactionCounter_shown := transactionCounter_shown s;
       counterValue := counterValue s;
       totalFilesCounter := totalFilesCounter s;
       todayFilesCounter := todayFilesCounter s |}).

Definition set_transactionCounter (shown : bool) (v : string)
  : World -> World :=
  with_summary (fun s =>
    {| fileCountEl := fileCountEl s; summaryFileCount := summaryFileCount s;
       summaryTransactionCount := summaryTransactionCount s;
       transactionCounter_shown := shown;
       counterValue := v;
       totalFilesCounter := totalFilesCounter s;
       todayFilesCounter := todayFilesCounter s |}).

Definition set_statisticsCounters (total today : Z) : World -> World :=
  with_summary (fun s =>
    {| fileCountEl := fileCountEl s; summaryFileCount := summaryFileCount s;
       summaryTransactionCount := summaryTransactionCount s;
       transactionCounter_shown := transactionCounter_shown s;
       counterValue := counterValue s;
       totalFilesCounter := total;
       todayFilesCounter := today |}).

(** ** What the handlers wait for *)

(** How a [fetch] followed by [response.json()] ends. *)
Inductive Fetched (A : Type) :=
| NetworkError (message : string)
| HttpError (status : Z)
| BodyError (message : string)
| Json (result : A).

Arguments NetworkError {A} message.
Arguments HttpError {A} status.
Arguments BodyError {A} message.
Arguments Json {A} result.

(** The body of a response of /upload: [success] with [data], or [error]. *)
Inductive UploadResult :=
| UploadSuccess (assessee_info : value) (transactions : list obj)
| UploadFailure (error : prim).

(** The body of a response of /download_excel. *)
Inductive DownloadResult :=
| DownloadSuccess (download_url filename : string)
| DownloadFailure (error : prim).

(** How [renderPDFPage] ends: [getPage] rejects, [page.render] rejects
    after the canvas is in place, or the page is drawn. *)
Inductive Rendering :=
| GetPageRejected
| RenderRejected
| Rendered.

(** ** The functions of the script *)

Definition showNotification (message type : string) : World -> World :=
  emit (Notification message type).

Definition updateStatisticsCounters : World -> World := fun w =>
  set_statisticsCounters
    (totalFilesProcessed (userData (js w)))
    (todayFilesProcessed (userData (js w))) w.

Definition saveUserData : World -> World :=
  (fun w => set_localStorage (userData (js w)) w) ;;
  updateStatisticsCounters.

(** [today] is [new Date().toDateString()] at the call. *)
Definition loadUserData (today : string) : World -> World := fun w =>
  (match localStorage w with
   | Some savedData =>
       set_userData savedData ;;
       (fun w =>
          if negb (lastResetDate (userData (js w)) =? today)%string
          then
            (set_userData
               {| totalFilesProcessed := totalFilesProcessed (userData (js w));
                  todayFilesProcessed := 0;
                  lastResetDate := today |} ;;
             saveUserData) w
          else w)
   | None => fun w => w
   end ;;
   updateStatisticsCounters) w.

Definition updateFileCount : World -> World := fun w =>
  set_fileCounts (match selectedFile (js w) with Some _ => "1" | None => "0" end) w.

Definition renderPDFPage (pageNumber : Z) (r : Rendering) : World -> World :=
  fun w =>
  let catch :=
    emit (ConsoleError "Error rendering PDF page:") ;;
    showNotification "Error rendering PDF page." "error" in
  match pdfDocument (js w), r with
  | None, _ | Some _, GetPageRejected => catch w
  | Some _, RenderRejected =>
      (set_pdfViewer (ViewerCanvas pageNumber) ;; catch) w
  | Some _, Rendered =>
      (set_pdfViewer (ViewerCanvas pageNumber) ;;
       (fun w =>
          set_pageInfo ("Page " +:+ text_of_Z pageNumber +:+ " of "
                          +:+ text_of_Z (totalPages (js w))) w) ;;
       (fun w =>
          set_pageButtons (pageNumber <=? 1)
                          (totalPages (js w) <=? pageNumber) w)) w
  end.

(** [loadPDF] from the point where PDF.js has answered: [loaded] is the
    document, or [None] when reading or opening the file was rejected. *)
Definition loadPDF (loaded : option PdfDocument) (r : Rendering)
  : World -> World :=
  match loaded with
  | Some pdf =>
      set_pdfDocument (Some pdf) ;;
      set_totalPages (numPages pdf) ;;
      (fun w => set_pageCount (totalPages (js w)) w) ;;
      set_pdfControls_shown true ;;
      set_currentPage 1 ;;
      renderPDFPage 1 r
  | None =>
      emit (ConsoleError "Error loading PDF:") ;;
      showNotification
        "Error loading PDF file. Please ensure it's a valid 26AS PDF." "error" ;;
      set_pdfViewer ViewerLoadError
  end.

(** [handleFile], up to the first [await] of the [loadPDF] it starts. *)
Definition handleFile (file : File) : World -> World :=
  if negb (endsWith ".pdf" (toLowerCase (file_name file))) then
    showNotification "Please select a PDF file." "error"
  else
    set_selectedFile (Some file) ;;
    updateFileCount ;;
    set_extractedData blankExtractedData ;;
    set_parseBtn_disabled false ;;
    clickPreviewTab 0 ;;
    set_pdfInfo (PdfInfoFile file).

Definition updateSummary : World -> World := fun w =>
  set_summaryTransactionCount
    (text_of_Z (Z.of_nat (length (transactions (extractedData (js w)))))) w.

Definition updateAssesseeInfo : World -> World := fun w =>
  let a := assessee (extractedData (js w)) in
  if truthy a
     && ToBoolean
          (logical_or
             (logical_or (logical_or (prop a "name") (prop a "pan"))
                         (prop a "financialYear"))
             (prop a "financial_year"))
  then
    let financialYear :=
      logical_or
        (logical_or (prop a "financial_year") (prop a "financialYear"))
        (PStr "Not Available") in
    with_assesseePanel (fun _ =>
      {| assesseeInfo_visible := true;
         assesseeName :=
           ToString (logical_or (prop a "name") (PStr "Not Available"));
         assesseePAN :=
           ToString (logical_or (prop a "pan") (PStr "Not Available"));
         assesseeFY := ToString financialYear |}) w
  else w.

Definition formatAmount (amt : prim) : string :=
  if negb (ToBoolean amt) && strict_ne_zero amt then "0.00"
  else toLocaleString_enIN_2 (parseFloat amt).

(** The thirteen values both table fillers put into the template of a
    row, one for each [td] of the template and in its order.  The template
    is assigned to [innerHTML]: the cells the browser makes of a value that
    holds markup are not part of the model, a row is kept as the list of
    these values. *)
Definition rowCells (transaction : obj) : list string :=
  [ ToString (logical_or (get transaction "sr_no") (PStr ""));
    ToString (logical_or (get transaction "deductor_name")
                         (PStr "Not Available"));
    ToString (logical_or (get transaction "deductor_tan") (PStr ""));
    ToString (logical_or (get transaction "section") (PStr ""));
    ToString (logical_or (get transaction "transaction_date") (PStr ""));
    ToString (logical_or (get transaction "status") (PStr "F"));
    ToString (logical_or (get transaction "date_of_booking") (PStr ""));
    "₹" +:+ formatAmount (get transaction "amount_paid");
    "₹" +:+ formatAmount (get transaction "tax_deducted");
    "₹" +:+ formatAmount (get transaction "tds_deposited");
    "₹" +:+ formatAmount (get transaction "net_amount");
    toFixed 2 (parseFloat (logical_or (get transaction "rate") (PNum zero)))
      +:+ "%";
    ToString (logical_or (get transaction "page_number") (PStr "")) ].

(** [rows.forEach(transaction => { ...; excelBody.appendChild(row) })] *)
Fixpoint appendRows (rows : list obj) : World -> World :=
  match rows with
  | [] => fun w => w
  | transaction :: rest =>
      appendChild_excelBody (DataRow (rowCells transaction)) ;;
      appendRows rest
  end.

Definition fullHeader : list string :=
  [ "Sr.No"; "Name of Deductor"; "TAN of Deductor"; "Section";
    "Transaction Date"; "Status of Booking*"; "Date of Booking";
    "Amount Paid / Credited"; "Tax Deducted"; "TDS Deposited";
    "Net Amount"; "Rate %"; "PDF Page No" ].

Definition updateExcelPreview : World -> World := fun w =>
  let transactions := transactions (extractedData (js w)) in
  let n := Z.of_nat (length transactions) in
  if n =? 0 then
    (set_excelBody [PlaceholderRow] ;;
     set_excelInfo "No data parsed" ;;
     set_excelRowInfo "Showing 0 rows") w
  else
    (set_excelHeader fullHeader ;;
     set_excelBody [] ;;
     appendRows (take 50 transactions) ;;
     (if 50 <? n then appendChild_excelBody (InfoRow n) else fun w => w) ;;
     set_excelInfo
       ("Extracted " +:+ text_of_Z n +:+ " transactions from 26AS PDF") ;;
     set_excelRowInfo ("Showing " +:+ text_of_Z (Z.min 50 n) +:+ " rows")) w.

Definition showAllTransactions : World -> World := fun w =>
  let transactions := transactions (extractedData (js w)) in
  let n := Z.of_nat (length transactions) in
  if n =? 0 then w
  else
    (set_excelBody [] ;;
     appendRows transactions ;;
     set_excelRowInfo ("Showing all " +:+ text_of_Z n +:+ " rows")) w.

Definition showDownloadModal : World -> World := fun w =>
  let d := extractedData (js w) in
  let n := Z.of_nat (length (transactions d)) in
  if n =? 0 then
    showNotification
      "No data to download. Please parse a 26AS PDF first." "error" w
  else
    with_modal (fun _ =>
      {| modalPageCount :=
           ToString (logical_or (PNum (of_Z (pageCount (processingStats d))))
                                (PNum (of_Z 1)));
         modalTransactionCount := text_of_Z n;
         modalTime :=
           endTime (processingStats d) - startTime (processingStats d);
         modalFileSize :=
           text_of_Z ((2 * (n * 13 * 15) + 1024) / (2 * 1024)) +:+ " KB";
         reportModal_shown := true |}) w.

(** [parsePDF] is asynchronous: it runs up to its [fetch] when Parse is
    clicked and goes on when the answer is in, and any other handler may
    run in between.  [parsePDF_request] is the part before the [await],
    [t0] being [Date.now()] at the click. *)
Definition parsePDF_request (t0 : Z) : World -> World := fun w =>
  match selectedFile (js w) with
  | None => showNotification "Please select a 26AS PDF file first." "error" w
  | Some file =>
      (set_startTime t0 ;;
       set_parseBtn_disabled true ;;
       set_downloadBtn_disabled true ;;
       emit (Fetch "/upload" (Request.FormData file))) w
  end.

(** The part after the [await]s, on the world as it is when the answer [r]
    is in; [t1] is [Date.now()] then.  Between the two [await]s the script
    writes the progress bar only. *)
Definition parsePDF_response (t1 : Z) (r : Fetched UploadResult)
  : World -> World :=
  let catch (message : string) :=
    emit (ConsoleError "Error parsing PDF:") ;;
    showNotification ("Error parsing PDF: " +:+ message) "error" in
  match r with
  | NetworkError message => catch message
  | HttpError status => catch ("Server error: " +:+ text_of_Z status)
  | BodyError message => catch message
  | Json (UploadSuccess assessee_info transactions) =>
      set_assessee assessee_info ;;
      set_transactions transactions ;;
      set_endTime t1 ;;
      updateSummary ;;
      updateExcelPreview ;;
      updateAssesseeInfo ;;
      set_transactionCounter true
        (text_of_Z (Z.of_nat (length transactions))) ;;
      set_downloadBtn_disabled false ;;
      clickPreviewTab 1 ;;
      showNotification
        ("Successfully parsed "
           +:+ text_of_Z (Z.of_nat (length transactions))
           +:+ " transactions from 26AS PDF") "success"
  | Json (UploadFailure error) =>
      catch (ToString (logical_or error (PStr "Unknown error from server")))
  end ;;
  set_parseBtn_disabled false.

(** [parsePDF] when nothing else runs between the click and the answer. *)
Definition parsePDF (t0 t1 : Z) (r : Fetched UploadResult) : World -> World :=
  fun w =>
  match selectedFile (js w) with
  | None => parsePDF_request t0 w
  | Some _ => (parsePDF_request t0 ;; parsePDF_response t1 r) w
  end.

Definition downloadExcelFile (r : Fetched DownloadResult) : World -> World :=
  fun w =>
  let catch (message : string) :=
    emit (ConsoleError "Error downloading file:") ;;
    showNotification ("Error generating Excel file: " +:+ message) "error" in
  let d := extractedData (js w) in
  if Z.of_nat (length (transactions d)) =? 0 then
    showNotification "No data to download." "error" w
  else
    (set_confirmDownload_disabled true ;;
     emit (Fetch "/download_excel"
             (Request.JsonBody
                {| Request.assessee_info := assessee d;
                   Request.transactions := transactions d |})) ;;
     match r with
     | NetworkError message => catch message
     | HttpError status => catch ("Server error: " +:+ text_of_Z status)
     | BodyError message => catch message
     | Json (DownloadSuccess download_url filename) =>
         emit (AnchorClick download_url filename) ;;
         (fun w =>
            set_userData
              {| totalFilesProcessed :=
                   totalFilesProcessed (userData (js w)) + 1;
                 todayFilesProcessed :=
                   todayFilesProcessed (userData (js w)) + 1;
                 lastResetDate := lastResetDate (userData (js w)) |} w) ;;
         saveUserData ;;
         set_reportModal_shown false ;;
         showNotification "Excel file downloaded successfully!" "success"
     | Json (DownloadFailure error) =>
         catch (ToString
                  (logical_or error (PStr "Failed to generate Excel file")))
     end ;;
     set_confirmDownload_disabled false) w.

(** The header [resetTool] writes. *)
Definition resetHeader : list string :=
  [ "Sr.No"; "Name of Deductor"; "TAN of Deductor"; "Section";
    "Transaction Date"; "Status of Booking*";
    "Amount Paid / Credited"; "Tax Deducted"; "TDS Deposited";
    "Net Amount"; "Rate %" ].

Definition resetTool : World -> World :=
  set_selectedFile None ;;
  set_pdfDocument None ;;
  set_currentPage 1 ;;
  set_totalPages 0 ;;
  set_extractedData blankExtractedData ;;
  updateFileCount ;;
  set_summaryTransactionCount "0" ;;
  set_parseBtn_disabled true ;;
  set_downloadBtn_disabled true ;;
  set_transactionCounter false "0" ;;
  with_assesseePanel (fun p =>
    {| assesseeInfo_visible := false; assesseeName := assesseeName p;
       assesseePAN := assesseePAN p; assesseeFY := assesseeFY p |}) ;;
  set_pdfControls_shown false ;;
  set_pdfViewer ViewerNoPdf ;;
  set_pdfInfo PdfInfoNone ;;
  set_excelHeader resetHeader ;;
  updateExcelPreview ;;
  clickPreviewTab 0 ;;
  showNotification "Tool has been reset successfully." "success".

(** The two page buttons. *)
Definition prevPage (r : Rendering) : World -> World := fun w =>
  if 1 <? currentPage (js w) then
    (set_currentPage (currentPage (js w) - 1) ;;
     (fun w => renderPDFPage (currentPage (js w)) r w)) w
  else w.

Definition nextPage (r : Rendering) : World -> World := fun w =>
  if currentPage (js w) <? totalPages (js w) then
    (set_currentPage (currentPage (js w) + 1) ;;
     (fun w => renderPDFPage (currentPage (js w)) r w)) w
  else w.

(** ** A session: the page is loaded, then events arrive

    An event is a listener called by the user or an asynchronous function
    going on after its [await]: [PdfAnswered] is [loadPDF] from the answer
    of PDF.js on, [ParseAnswered] is [parsePDF] from the answer of /upload
    on.  Such an answer may come after any number of other events.
    [renderPDFPage] and [downloadExcelFile] are taken from call to end. *)

Inductive Event :=
| FileChosen (file : File)
| PdfAnswered (loaded : option PdfDocument) (r : Rendering)
| ParseClicked (t0 : Z)
| ParseAnswered (t1 : Z) (r : Fetched UploadResult)
| ResetClicked
| ShowAllClicked
| DownloadClicked
| ConfirmClicked (r : Fetched DownloadResult)
| ModalClosed
| PrevClicked (r : Rendering)
| NextClicked (r : Rendering)
| TabClicked (i : nat).

Definition step (w : World) (e : Event) : World :=
  match e with
  | FileChosen file => handleFile file w
  | PdfAnswered loaded r => loadPDF loaded r w
  | ParseClicked t0 => parsePDF_request t0 w
  | ParseAnswered t1 r => parsePDF_response t1 r w
  | ResetClicked => resetTool w
  | ShowAllClicked => showAllTransactions w
  | DownloadClicked => showDownloadModal w
  | ConfirmClicked r => downloadExcelFile r w
  | ModalClosed => set_reportModal_shown false w
  | PrevClicked r => prevPage r w
  | NextClicked r => nextPage r w
  | TabClicked i => clickPreviewTab i w
  end.

Definition run (w : World) (events : list Event) : World :=
  fold_left step events w.

(** The world once the script has been evaluated and [init] has run:
    [markup] is the document as served, [saved] what [localStorage] holds,
    [evaluated] and [today] are [new Date().toDateString()] when the script
    is evaluated and when [init] runs. *)
Definition startGlobals (today : string) : Globals :=
  {| selectedFile := None;
     extractedData := blankExtractedData;
     pdfDocument := None;
     currentPage := 1;
     totalPages := 0;
     userData := {| totalFilesProcessed := 0; todayFilesProcessed := 0;
                    lastResetDate := today |} |}.

Definition init (markup : Dom) (saved : option UserData)
    (evaluated today : string) : World :=
  loadUserData today
    {| js := startGlobals evaluated; document := markup;
       localStorage := saved; out := [] |}.

(** ** Sample data for the concrete instances below *)

Definition demoMarkup : Dom :=
  {| buttons :=
       {| parseBtn_disabled := true; downloadBtn_disabled := true;
          confirmDownload_disabled := false;
          prevPage_disabled := false; nextPage_disabled := false |};
     pdfPane :=
       {| pdfViewer := ViewerMarkup; pdfInfo := PdfInfoMarkup;
          pdfControls_shown := false; pageInfo := "" |};
     excelPane :=
       {| excelHeader := []; excelBody := [];
          excelInfo := ""; excelRowInfo := "" |};
     modal :=
       {| reportModal_shown := false; modalPageCount := "0";
          modalTransactionCount := "0"; modalTime := 0;
          modalFileSize := "0 KB" |};
     assesseePanel :=
       {| assesseeInfo_visible := false; assesseeName := "";
          assesseePAN := ""; assesseeFY := "" |};
     summary :=
       {| fileCountEl := "0"; summaryFileCount := "0";
          summaryTransactionCount := "0";
          transactionCounter_shown := false; counterValue := "0";
          totalFilesCounter := 0; todayFilesCounter := 0 |};
     activePreviewTab := 0 |}.

Definition demoFile : File :=
  {| file_name := "Form26AS_2023.PDF"; file_size := 184320 |}.

Definition demoImage : File :=
  {| file_name := "scan.pdf.png"; file_size := 2048 |}.

Definition demoPdf : PdfDocument := {| numPages := 3 |}.

Definition demoTransaction (sr : Z) : obj :=
  <["sr_no" := PNum (of_Z sr)]>
    (<["deductor_name" := PStr "ACME LTD"]>
       (<["deductor_tan" := PStr "MUMA12345B"]>
          (<["section" := PStr "194C"]>
             (<["transaction_date" := PStr "30-Jun-2023"]>
                (<["amount_paid" := PNum (of_Z 1234567)]>
                   (<["tax_deducted" := PNum (decimal false 1234567 (-1))]>
                      (<["tds_deposited" := PStr "N/A"]>
                         (<["page_number" := PNum (of_Z 2)]> ∅)))))))).

Definition demoAssessee : obj :=
  <["name" := PStr "A TAXPAYER"]>
    (<["pan" := PStr "ABCDE1234F"]>
       (<["financial_year" := PStr "2023-24"]>
          (<["assessment_year" := PStr "2024-25"]>
             (<["address" := PStr ""]> ∅)))).

Definition demoStart : World := init demoMarkup None "Mon Nov 02 2026" "Mon Nov 02 2026".

(** ** Observations used in the statements *)

Definition pageCountOf (w : World) : Z :=
  pageCount (processingStats (extractedData (js w))).


(** The test [handleFile] makes on the name of the file. *)
Definition pdf_named (file : File) : bool :=
  endsWith ".pdf" (toLowerCase (file_name file)).

(** Events after which the document on screen is still the same one: no
    other file is accepted, no reset, no answer of another load. *)
Definition keeps_document (e : Event) : bool :=
  match e with
  | FileChosen file => negb (pdf_named file)
  | PdfAnswered _ _ | ResetClicked => false
  | _ => true
  end.





(** Two files chosen one after the other, of three and of five pages;
    PDF.js answers for the second one first and for the first one after
    it, then the second file, the one selected, is parsed and the modal is
    opened. *)
Definition demoOther : File :=
  {| file_name := "Form26AS_2022.pdf"; file_size := 307200 |}.

Definition demoOtherPdf : PdfDocument := {| numPages := 5 |}.

Definition demoOverlappingLoads : World :=
  run demoStart
    [FileChosen demoFile; FileChosen demoOther;
     PdfAnswered (Some demoOtherPdf) Rendered;
     PdfAnswered (Some demoPdf) Rendered;
     ParseClicked 100;
     ParseAnswered 350
       (Json (UploadSuccess (VObj demoAssessee) [demoTransaction 1]));
     DownloadClicked].

(** A parse whose answer has no [assessee_info] in its [data], followed by
    a download the server answers with a file. *)
Definition demoNoAssessee : World :=
  run demoStart
    [FileChosen demoFile; PdfAnswered (Some demoPdf) Rendered;
     ParseClicked 100;
     ParseAnswered 350
       (Json (UploadSuccess (VPrim PUndefined) [demoTransaction 1]));
     DownloadClicked;
     ConfirmClicked
       (Json (DownloadSuccess "/download/26AS_Data.xlsx" "26AS_Data.xlsx"))].

(** The message of the error a response of /upload makes [parsePDF] throw,
    if it does. *)
Definition upload_failure (r : Fetched UploadResult) : option string :=
  match r with
  | NetworkError message | BodyError message => Some message
  | HttpError status => Some ("Server error: " +:+ text_of_Z status)
  | Json (UploadFailure error) =>
      Some (ToString (logical_or error (PStr "Unknown error from server")))
  | Json (UploadSuccess _ _) => None
  end.

(** The same for /download_excel and [downloadExcelFile]. *)
Definition download_failure (r : Fetched DownloadResult) : option string :=
  match r with
  | NetworkError message | BodyError message => Some message
  | HttpError status => Some ("Server error: " +:+ text_of_Z status)
  | Json (DownloadFailure error) =>
      Some (ToString (logical_or error (PStr "Failed to generate Excel file")))
  | Json (DownloadSuccess _ _) => None
  end.

(** The rows of the table that show a transaction, each as its values. *)
Definition dataRows (body : list Row) : list (list string) :=
  omap (fun row => match row with DataRow values => Some values | _ => None end)
       body.

(** The amount fields and the place in the row each one is shown at. *)
Definition amount_columns : list (string * nat) :=
  [ ("amount_paid", 7%nat); ("tax_deducted", 8%nat);
    ("tds_deposited", 9%nat); ("net_amount", 10%nat) ].

(** The world after a parse that found transactions. *)
Definition demoParsed : World :=
  run demoStart
    [FileChosen demoFile; PdfAnswered (Some demoPdf) Rendered;
     ParseClicked 100;
     ParseAnswered 350
       (Json (UploadSuccess (VObj demoAssessee)
                [demoTransaction 1; demoTransaction 2]))].

(** The five keys of the assessee object the script itself writes. *)
Definition identity_keys : gset string :=
  {[ "name"; "pan"; "financialYear"; "address"; "assessmentYear" ]}.

Definition has_identity_keys (v : value) : bool :=
  match v with
  | VObj o => bool_decide (dom o = identity_keys)
  | VPrim _ => false
  end.

(** The events at which the script assigns [extractedData.assessee]. *)
Definition assigns_assessee (e : Event) : bool :=
  match e with
  | FileChosen file => pdf_named file
  | ResetClicked => true
  | ParseAnswered _ (Json (UploadSuccess _ _)) => true
  | _ => false
  end.

(** The financial year the panel shows for an assessee object. *)
Definition shownFinancialYear (a : obj) : string :=
  assesseeFY
    (assesseePanel
       (document (updateAssesseeInfo (set_assessee (VObj a) demoStart)))).

Definition demoCamel (fy : string) : obj :=
  <["name" := PStr "A TAXPAYER"]> (<["financialYear" := PStr fy]> ∅).

Definition demoBoth (fy : string) : obj :=
  <["financial_year" := PStr fy]> (demoCamel "2022-23").

(** The files sent to /upload among some effects. *)
Definition uploads (effects : list Effect) : list File :=
  omap (fun e => match e with
                 | Fetch _ (Request.FormData file) => Some file
                 | _ => None
                 end) effects.

(** A download that the server answers with a file. *)
Definition download_succeeds (r : Fetched DownloadResult) (w : World) : bool :=
  match r with
  | Json (DownloadSuccess _ _) =>
      negb (Z.of_nat (length (transactions (extractedData (js w)))) =? 0)
  | _ => false
  end.

Definition is_confirm (e : Event) : bool :=
  match e with ConfirmClicked _ => true | _ => false end.

Definition demoSaved : UserData :=
  {| totalFilesProcessed := 41; todayFilesProcessed := 7;
     lastResetDate := "Sun Nov 01 2026" |}.

(** In a session the selected file and every uploaded file have passed the
    test on the name. *)
Definition only_pdfs (w : World) : Prop :=
  (forall file, selectedFile (js w) = Some file -> pdf_named file = true)
  /\ Forall (fun file => pdf_named file = true) (uploads (out w)).


(** ** The other listeners *)

(** The two tab bars.  A tab carries its [data-tab] attribute and whether
    its class list has [active]; a pane its id and the same flag.  The
    listener of the preview tabs looks for the pane [<data-tab>-preview],
    the one of the info tabs for [<data-tab>-tab]. *)
Module Tabs.

Record Tab := { data_tab : option string; tab_active : bool }.

Record Pane := { pane_id : string; pane_active : bool }.

Record Bar := { tabs : list Tab; panes : list Pane }.

(** [tab.getAttribute('data-tab')] inside the template literal *)
Definition tabId (tab : Tab) : string :=
  match data_tab tab with Some s => s | None => "null" end.

Definition remove_active (tab : Tab) : Tab :=
  {| data_tab := data_tab tab; tab_active := false |}.

Definition add_active (tab : Tab) : Tab :=
  {| data_tab := data_tab tab; tab_active := true |}.

(** The click listener of the tab at index [i] of the bar. *)
Definition click (suffix : string) (i : nat) (bar : Bar) : Bar :=
  match tabs bar !! i with
  | None => bar
  | Some tab =>
      {| tabs := alter add_active i (map remove_active (tabs bar));
         panes :=
           map (fun pane =>
                  {| pane_id := pane_id pane;
                     pane_active :=
                       (pane_id pane =? tabId tab +:+ suffix)%string |})
               (panes bar) |}
  end.

End Tabs.

(** [setupScrollListener]: the position of the page at the last scroll
    event and whether the statistics container has the class [visible].
    Positions are fractions, as every finite double is. *)
Module Scroll.

Import QArith.

Record State := { lastScrollTop : Q; statsContainer_visible : bool }.

(** [window.pageYOffset || document.documentElement.scrollTop] *)
Definition position (pageYOffset documentScrollTop : Q) : Q :=
  if Qeq_bool pageYOffset 0 then documentScrollTop else pageYOffset.

Definition gt (a b : Q) : bool := negb (Qle_bool a b).

(** The listener, for one scroll event. *)
Definition onScroll (s : State) (at_ : Q * Q) : State :=
  let scrollTop := position (fst at_) (snd at_) in
  {| statsContainer_visible :=
       if gt scrollTop 100 && gt scrollTop (lastScrollTop s) then true
       else if Qle_bool scrollTop 100 then false
       else statsContainer_visible s;
     lastScrollTop := scrollTop |}.

(** The state when the listener is set up, [visible] as the markup has it. *)
Definition start (visible : bool) : State :=
  {| lastScrollTop := 0; statsContainer_visible := visible |}.

Definition scrolls (s : State) (events : list (Q * Q)) : State :=
  fold_left onScroll events s.

(** No position of the run is further down the page than the one before
    it, [last] being the one before the first. *)
Fixpoint never_down (last : Q) (tops : list Q) : Prop :=
  match tops with
  | [] => True
  | top :: rest => top <= last /\ never_down top rest
  end.

End Scroll.

(** ** Observations for the further properties *)

(** The page shown is page 1 or a page of the document. *)
Definition page_in_range (w : World) : Prop :=
  currentPage (js w) = 1
  \/ (1 < currentPage (js w) /\ currentPage (js w) <= totalPages (js w)).

(** The bodies of the requests sent to /download_excel. *)
Definition download_bodies (effects : list Effect)
  : list Request.DownloadData :=
  omap (fun e => match e with
                 | Fetch _ (Request.JsonBody body) => Some body
                 | _ => None
                 end) effects.

(** The files offered to the user: the clicks on a download anchor. *)
Definition file_offers (effects : list Effect) : list (string * string) :=
  omap (fun e => match e with
                 | AnchorClick href download => Some (href, download)
                 | _ => None
                 end) effects.

(** The counters on the page are those of [userData], and what is stored,
    if anything, is [userData]. *)
Definition counters_in_sync (w : World) : Prop :=
  totalFilesCounter (summary (document w))
  = totalFilesProcessed (userData (js w))
  /\ todayFilesCounter (summary (document w))
     = todayFilesProcessed (userData (js w))
  /\ (localStorage w = None \/ localStorage w = Some (userData (js w))).

(** Events that bring no result of the server: every event but a success
    answer of /upload. *)
Definition no_result (e : Event) : bool :=
  match e with
  | ParseAnswered _ (Json (UploadSuccess _ _)) => false
  | _ => true
  end.

(** No answer of /upload arrives while no file is selected: none is still
    on its way when Reset is clicked, or it only arrives once another file
    has been chosen. *)
Fixpoint answers_find_a_file (w : World) (events : list Event) : bool :=
  match events with
  | [] => true
  | e :: rest =>
      match e, selectedFile (js w) with
      | ParseAnswered _ _, None => false
      | _, _ => answers_find_a_file (step w e) rest
      end
  end.


Definition demoBar : Tabs.Bar :=
  {| Tabs.tabs :=
       [ {| Tabs.data_tab := Some "pdf"; Tabs.tab_active := true |};
         {| Tabs.data_tab := Some "excel"; Tabs.tab_active := false |} ];
     Tabs.panes :=
       [ {| Tabs.pane_id := "pdf-preview"; Tabs.pane_active := true |};
         {| Tabs.pane_id := "excel-preview"; Tabs.pane_active := false |} ] |}.

(** ** Frame lemmas: which parts of the world a function leaves alone *)

Ltac project :=
  unfold seq;
  cbn [seq showNotification saveUserData updateStatisticsCounters
       updateSummary
       set_selectedFile set_pdfDocument set_currentPage set_totalPages
       set_userData set_extractedData set_assessee set_transactions
       set_startTime set_endTime set_pageCount with_processingStats
       with_extractedData
       set_parseBtn_disabled set_downloadBtn_disabled
       set_confirmDownload_disabled set_pageButtons set_pdfViewer set_pdfInfo
       set_pdfControls_shown set_pageInfo set_excelHeader set_excelBody
       appendChild_excelBody set_excelInfo set_excelRowInfo
       set_reportModal_shown set_fileCounts set_summaryTransactionCount
       set_transactionCounter set_statisticsCounters clickPreviewTab
       with_buttons with_pdfPane with_excelPane with_modal
       with_assesseePanel with_summary with_js with_document
       set_localStorage emit
       js document localStorage out
       selectedFile extractedData pdfDocument currentPage totalPages userData
       assessee transactions processingStats startTime endTime pageCount
       totalFilesProcessed todayFilesProcessed lastResetDate
       buttons pdfPane excelPane modal assesseePanel summary activePreviewTab
       parseBtn_disabled downloadBtn_disabled confirmDownload_disabled
       prevPage_disabled nextPage_disabled
       pdfViewer pdfInfo pdfControls_shown pageInfo
       excelHeader excelBody excelInfo excelRowInfo
       reportModal_shown modalPageCount modalTransactionCount modalTime
       modalFileSize
       assesseeInfo_visible assesseeName assesseePAN assesseeFY
       fileCountEl summaryFileCount summaryTransactionCount
       transactionCounter_shown counterValue totalFilesCounter
       todayFilesCounter].

Ltac frame_step := project.

Lemma appendRows_js rows w : js (appendRows rows w) = js w.
Proof.
  revert w; induction rows as [|t rows IH]; intros w; cbn [appendRows]; [done|].
  unfold seq. by rewrite IH.
Qed.

Lemma appendRows_out rows w : out (appendRows rows w) = out w.
Proof.
  revert w; induction rows as [|t rows IH]; intros w; cbn [appendRows]; [done|].
  unfold seq. by rewrite IH.
Qed.

Lemma appendRows_localStorage rows w :
  localStorage (appendRows rows w) = localStorage w.
Proof.
  revert w; induction rows as [|t rows IH]; intros w; cbn [appendRows]; [done|].
  unfold seq. by rewrite IH.
Qed.

(** The loop appends one data row per element, in the order of the list,
    and touches nothing else in the document. *)
Lemma appendRows_document rows w :
  document (appendRows rows w)
  = {| buttons := buttons (document w); pdfPane := pdfPane (document w);
       excelPane :=
         {| excelHeader := excelHeader (excelPane (document w));
            excelBody :=
              excelBody (excelPane (document w))
                ++ map (fun t => DataRow (rowCells t)) rows;
            excelInfo := excelInfo (excelPane (document w));
            excelRowInfo := excelRowInfo (excelPane (document w)) |};
       modal := modal (document w);
       assesseePanel := assesseePanel (document w);
       summary := summary (document w);
       activePreviewTab := activePreviewTab (document w) |}.
Proof.
  revert w; induction rows as [|t rows IH]; intros w; cbn [appendRows map].
  - rewrite app_nil_r. by destruct w as [g [b p [h bd i ri] m a s t] l o].
  - unfold seq. rewrite IH. frame_step. by rewrite <- app_assoc.
Qed.

Lemma updateExcelPreview_js w : js (updateExcelPreview w) = js w.
Proof.
  unfold updateExcelPreview. destruct (_ =? 0); [done|].
  destruct (50 <? _); frame_step; by rewrite appendRows_js.
Qed.

Lemma updateExcelPreview_out w : out (updateExcelPreview w) = out w.
Proof.
  unfold updateExcelPreview. destruct (_ =? 0); [done|].
  destruct (50 <? _); frame_step; by rewrite appendRows_out.
Qed.

Lemma updateExcelPreview_localStorage w :
  localStorage (updateExcelPreview w) = localStorage w.
Proof.
  unfold updateExcelPreview. destruct (_ =? 0); [done|].
  destruct (50 <? _); frame_step; by rewrite appendRows_localStorage.
Qed.

(** [updateExcelPreview] writes inside the table pane only. *)
Lemma updateExcelPreview_document w :
  document (updateExcelPreview w)
  = {| buttons := buttons (document w); pdfPane := pdfPane (document w);
       excelPane := excelPane (document (updateExcelPreview w));
       modal := modal (document w);
       assesseePanel := assesseePanel (document w);
       summary := summary (document w);
       activePreviewTab := activePreviewTab (document w) |}.
Proof.
  unfold updateExcelPreview. destruct (_ =? 0); [done|].
  destruct (50 <? _); frame_step; by rewrite appendRows_document.
Qed.

Lemma updateAssesseeInfo_js w : js (updateAssesseeInfo w) = js w.
Proof. unfold updateAssesseeInfo. by destruct (_ && _). Qed.

Lemma updateAssesseeInfo_out w : out (updateAssesseeInfo w) = out w.
Proof. unfold updateAssesseeInfo. by destruct (_ && _). Qed.

Lemma updateAssesseeInfo_localStorage w :
  localStorage (updateAssesseeInfo w) = localStorage w.
Proof. unfold updateAssesseeInfo. by destruct (_ && _). Qed.

(** [updateAssesseeInfo] writes inside the assessee panel only. *)
Lemma updateAssesseeInfo_document w :
  document (updateAssesseeInfo w)
  = {| buttons := buttons (document w); pdfPane := pdfPane (document w);
       excelPane := excelPane (document w);
       modal := modal (document w);
       assesseePanel := assesseePanel (document (updateAssesseeInfo w));
       summary := summary (document w);
       activePreviewTab := activePreviewTab (document w) |}.
Proof.
  unfold updateAssesseeInfo. destruct (_ && _); [done|].
  by destruct w as [g [b p e m a s t] l o].
Qed.

Lemma updateFileCount_js w : js (updateFileCount w) = js w.
Proof. done. Qed.

Lemma updateFileCount_out w : out (updateFileCount w) = out w.
Proof. done. Qed.

Lemma updateFileCount_localStorage w :
  localStorage (updateFileCount w) = localStorage w.
Proof. done. Qed.

Lemma renderPDFPage_js p r w : js (renderPDFPage p r w) = js w.
Proof. unfold renderPDFPage. by destruct (pdfDocument (js w)), r. Qed.

Lemma renderPDFPage_localStorage p r w :
  localStorage (renderPDFPage p r w) = localStorage w.
Proof. unfold renderPDFPage. by destruct (pdfDocument (js w)), r. Qed.

(** Push the projections through a chain of updates. *)
Ltac frame_rewrite :=
  rewrite ?appendRows_js, ?appendRows_out, ?appendRows_localStorage,
    ?updateExcelPreview_js, ?updateExcelPreview_out,
    ?updateExcelPreview_localStorage,
    ?updateAssesseeInfo_js, ?updateAssesseeInfo_out,
    ?updateAssesseeInfo_localStorage,
    ?updateFileCount_js, ?updateFileCount_out, ?updateFileCount_localStorage,
    ?renderPDFPage_js, ?renderPDFPage_localStorage.

Ltac frame := project; repeat (progress frame_rewrite; project); try done.

Lemma length_zero_iff_nil {A} (l : list A) :
  (Z.of_nat (length l) =? 0) = true <-> l = [].
Proof.
  rewrite Z.eqb_eq. destruct l; simpl; split; intros; try done; lia.
Qed.

Lemma parsePDF_request_js t0 w :
  js (parsePDF_request t0 w)
  = match selectedFile (js w) with
    | Some _ => js (set_startTime t0 w)
    | None => js w
    end.
Proof. unfold parsePDF_request. destruct (selectedFile (js w)); frame. Qed.

Lemma parsePDF_request_localStorage t0 w :
  localStorage (parsePDF_request t0 w) = localStorage w.
Proof. unfold parsePDF_request. destruct (selectedFile (js w)); frame. Qed.

Lemma parsePDF_response_js t1 r w :
  js (parsePDF_response t1 r w)
  = match r with
    | Json (UploadSuccess a txs) =>
        js (set_endTime t1 (set_transactions txs (set_assessee a w)))
    | _ => js w
    end.
Proof.
  unfold parsePDF_response. destruct r as [m|st|m|[a txs|e]]; frame.
Qed.

(** A success answer is stored whatever is selected. *)
Lemma parsePDF_response_success_js t1 a txs w :
  js (parsePDF_response t1 (Json (UploadSuccess a txs)) w)
  = {| selectedFile := selectedFile (js w);
       extractedData :=
         {| assessee := a; transactions := txs;
            processingStats :=
              {| startTime := startTime (processingStats (extractedData (js w)));
                 endTime := t1;
                 pageCount :=
                   pageCount (processingStats (extractedData (js w))) |} |};
       pdfDocument := pdfDocument (js w); currentPage := currentPage (js w);
       totalPages := totalPages (js w); userData := userData (js w) |}.
Proof. rewrite parsePDF_response_js. by project. Qed.

Lemma parsePDF_response_localStorage t1 r w :
  localStorage (parsePDF_response t1 r w) = localStorage w.
Proof.
  unfold parsePDF_response. destruct r as [m|st|m|[a txs|e]]; frame.
Qed.

(** What [parsePDF] leaves in the global variables. *)
Lemma parsePDF_js t0 t1 r w :
  js (parsePDF t0 t1 r w)
  = match selectedFile (js w), r with
    | Some _, Json (UploadSuccess a txs) =>
        js (set_endTime t1
              (set_transactions txs (set_assessee a (set_startTime t0 w))))
    | Some _, _ => js (set_startTime t0 w)
    | None, _ => js w
    end.
Proof.
  unfold parsePDF, parsePDF_request, parsePDF_response, seq.
  destruct (selectedFile (js w)); [|done].
  destruct r as [m|st|m|[a txs|e]]; frame.
Qed.

Lemma parsePDF_localStorage t0 t1 r w :
  localStorage (parsePDF t0 t1 r w) = localStorage w.
Proof.
  unfold parsePDF, parsePDF_request, parsePDF_response, seq.
  destruct (selectedFile (js w)); [|done].
  destruct r as [m|st|m|[a txs|e]]; frame.
Qed.

Lemma resetTool_js w :
  js (resetTool w)
  = {| selectedFile := None; extractedData := blankExtractedData;
       pdfDocument := None; currentPage := 1; totalPages := 0;
       userData := userData (js w) |}.
Proof. unfold resetTool. frame. Qed.

Lemma resetTool_localStorage w : localStorage (resetTool w) = localStorage w.
Proof. unfold resetTool. frame. Qed.

Lemma showAllTransactions_js w : js (showAllTransactions w) = js w.
Proof. unfold showAllTransactions. destruct (_ =? 0); frame. Qed.

Lemma showAllTransactions_localStorage w :
  localStorage (showAllTransactions w) = localStorage w.
Proof. unfold showAllTransactions. destruct (_ =? 0); frame. Qed.

Lemma showDownloadModal_js w : js (showDownloadModal w) = js w.
Proof. unfold showDownloadModal. by destruct (_ =? 0). Qed.

Lemma showDownloadModal_localStorage w :
  localStorage (showDownloadModal w) = localStorage w.
Proof. unfold showDownloadModal. by destruct (_ =? 0). Qed.

Lemma downloadExcelFile_extractedData r w :
  extractedData (js (downloadExcelFile r w)) = extractedData (js w).
Proof.
  unfold downloadExcelFile. destruct (_ =? 0); [done|].
  destruct r as [m|st|m|[u f|e]]; frame.
Qed.

Lemma prevPage_js r w :
  js (prevPage r w)
  = if 1 <? currentPage (js w)
    then js (set_currentPage (currentPage (js w) - 1) w) else js w.
Proof. unfold prevPage. destruct (1 <? _); frame. Qed.

Lemma nextPage_js r w :
  js (nextPage r w)
  = if currentPage (js w) <? totalPages (js w)
    then js (set_currentPage (currentPage (js w) + 1) w) else js w.
Proof. unfold nextPage. destruct (_ <? _); frame. Qed.

Lemma prevPage_localStorage r w :
  localStorage (prevPage r w) = localStorage w.
Proof. unfold prevPage. destruct (1 <? _); frame. Qed.

Lemma nextPage_localStorage r w :
  localStorage (nextPage r w) = localStorage w.
Proof. unfold nextPage. destruct (_ <? _); frame. Qed.

Lemma handleFile_rejected file w :
  pdf_named file = false ->
  handleFile file w = showNotification "Please select a PDF file." "error" w.
Proof. unfold handleFile, pdf_named. by intros ->. Qed.

Lemma handleFile_accepted_js file w :
  pdf_named file = true ->
  js (handleFile file w)
  = {| selectedFile := Some file; extractedData := blankExtractedData;
       pdfDocument := pdfDocument (js w); currentPage := currentPage (js w);
       totalPages := totalPages (js w); userData := userData (js w) |}.
Proof. unfold handleFile, pdf_named. intros ->. frame. Qed.

Lemma handleFile_localStorage file w :
  localStorage (handleFile file w) = localStorage w.
Proof. unfold handleFile. destruct (negb _); frame. Qed.

Lemma loadPDF_js pdf r w :
  js (loadPDF (Some pdf) r w)
  = {| selectedFile := selectedFile (js w);
       extractedData :=
         {| assessee := assessee (extractedData (js w));
            transactions := transactions (extractedData (js w));
            processingStats :=
              {| startTime := startTime (processingStats (extractedData (js w)));
                 endTime := endTime (processingStats (extractedData (js w)));
                 pageCount := numPages pdf |} |};
       pdfDocument := Some pdf; currentPage := 1;
       totalPages := numPages pdf; userData := userData (js w) |}.
Proof. unfold loadPDF. frame. Qed.

Lemma loadPDF_failed_js r w : js (loadPDF None r w) = js w.
Proof. unfold loadPDF. frame. Qed.

Lemma loadPDF_localStorage loaded r w :
  localStorage (loadPDF loaded r w) = localStorage w.
Proof. unfold loadPDF. destruct loaded; frame. Qed.

(** ** The page count (C1) *)

Lemma step_keeps_pageCount w e :
  keeps_document e = true -> pageCountOf (step w e) = pageCountOf w.
Proof.
  unfold pageCountOf.
  destruct e as [file|loaded r|t0|t1 r| | | |r| |r|r|i]; cbn [step keeps_document];
    intros He; try done.
  - rewrite handleFile_rejected; [done|]. by destruct (pdf_named file).
  - rewrite parsePDF_request_js. by destruct (selectedFile (js w)).
  - rewrite parsePDF_response_js. by destruct r as [m|st|m|[a txs|e]].
  - by rewrite showAllTransactions_js.
  - by rewrite showDownloadModal_js.
  - by rewrite downloadExcelFile_extractedData.
  - rewrite prevPage_js. by destruct (1 <? _).
  - rewrite nextPage_js. by destruct (_ <? _).
Qed.

Lemma run_keeps_pageCount events w :
  forallb keeps_document events = true ->
  pageCountOf (run w events) = pageCountOf w.
Proof.
  unfold run. revert w.
  induction events as [|e events IH]; intros w; simpl; [done|].
  intros [He Hes]%andb_prop. rewrite IH by done.
  by apply step_keeps_pageCount.
Qed.

Lemma num_is_zero_of_Z (z : Z) : num_is_zero (of_Z z) = (z =? 0).
Proof. by destruct z. Qed.

(** What the modal shows for a page count that is not 0. *)
Lemma showDownloadModal_pageCount w :
  transactions (extractedData (js w)) <> [] ->
  pageCountOf w <> 0 ->
  modalPageCount (modal (document (showDownloadModal w)))
  = text_of_Z (pageCountOf w).
Proof.
  intros Htx Hpc. unfold showDownloadModal.
  destruct (_ =? 0) eqn:Hn; [by apply length_zero_iff_nil in Hn|].
  frame_step. unfold logical_or, pageCountOf in *.
  cbn [ToBoolean num_is_nan]. rewrite num_is_zero_of_Z.
  by destruct (Z.eqb_spec (pageCount (processingStats (extractedData (js w)))) 0).
Qed.

(** C1 fails when loads overlap.  [loadPDF] does not look at which file
    is selected when PDF.js answers: here the file selected and sent to
    /upload is the one of five pages, PDF.js has opened it, and the page
    count read afterwards, by the modal too, is the 3 of the file chosen
    before it, whose answer came last. *)
Lemma overlapping_loads_page_count :
  selectedFile (js demoOverlappingLoads) = Some demoOther
  /\ uploads (out demoOverlappingLoads) = [demoOther]
  /\ numPages demoOtherPdf = 5
  /\ pageCountOf demoOverlappingLoads = 3
  /\ reportModal_shown (modal (document demoOverlappingLoads)) = true
  /\ modalPageCount (modal (document demoOverlappingLoads)) = "3".
Proof. repeat split; by vm_compute. Qed.

(** C1, as the script has it.  Choosing a PDF file puts the page count
    back to 0, and there it stays until PDF.js answers; when PDF.js
    answers with a document, of one page at least, the page count is its
    [numPages]; it stays so through every later event that keeps this
    document (parses with any result, downloads, page turns, rejected
    files: anything but an accepted file, a reset and another answer of
    PDF.js), and the download modal, whenever it opens, shows that
    number. *)
Theorem pageCount_is_numPages (w : World) (file : File) (pdf : PdfDocument)
    (r : Rendering) (before later : list Event) :
  pdf_named file = true ->
  1 <= numPages pdf ->
  forallb keeps_document before = true ->
  forallb keeps_document later = true ->
  let selected := run (handleFile file w) before in
  let loaded := loadPDF (Some pdf) r selected in
  let current := run loaded later in
  pageCountOf (handleFile file w) = 0
  /\ pageCountOf selected = 0
  /\ pageCountOf loaded = numPages pdf
  /\ totalPages (js loaded) = numPages pdf
  /\ pageCountOf current = numPages pdf
  /\ (transactions (extractedData (js current)) <> [] ->
      modalPageCount (modal (document (showDownloadModal current)))
      = text_of_Z (numPages pdf)).
Proof.
  intros Hname Hpages Hbefore Hlater selected loaded current.
  assert (Hfile : pageCountOf (handleFile file w) = 0).
  { unfold pageCountOf. by rewrite handleFile_accepted_js. }
  assert (Hloaded : pageCountOf loaded = numPages pdf).
  { unfold loaded, pageCountOf. by rewrite loadPDF_js. }
  assert (Hcurrent : pageCountOf current = numPages pdf).
  { unfold current. by rewrite run_keeps_pageCount. }
  repeat split; try done.
  - unfold selected. by rewrite run_keeps_pageCount.
  - unfold loaded. by rewrite loadPDF_js.
  - intros Htx. rewrite showDownloadModal_pageCount; [by rewrite Hcurrent|done|].
    rewrite Hcurrent. lia.
Qed.

Lemma pageCount_is_numPages_witness :
  let current :=
    run (loadPDF (Some demoPdf) Rendered
           (run (handleFile demoFile demoStart) [TabClicked 1%nat]))
        [ParseClicked 100;
         ParseAnswered 350
           (Json (UploadSuccess (VObj demoAssessee) [demoTransaction 1]));
         FileChosen demoImage; DownloadClicked] in
  pageCountOf current = 3
  /\ modalPageCount (modal (document (showDownloadModal current))) = "3".
Proof.
  pose proof (pageCount_is_numPages demoStart demoFile demoPdf Rendered
    [TabClicked 1%nat]
    [ParseClicked 100;
     ParseAnswered 350
       (Json (UploadSuccess (VObj demoAssessee) [demoTransaction 1]));
     FileChosen demoImage; DownloadClicked]
    eq_refl ltac:(simpl; lia) eq_refl eq_refl)
    as (_ & _ & _ & _ & Hcurrent & Hmodal).
  split; [exact Hcurrent|]. apply Hmodal.
  intros H%(f_equal length). vm_compute in H. discriminate H.
Defined.

(** ** What the table shows *)

Lemma updateExcelPreview_excelPane w :
  excelPane (document (updateExcelPreview w))
  = let txs := transactions (extractedData (js w)) in
    let n := Z.of_nat (length txs) in
    if n =? 0 then
      {| excelHeader := excelHeader (excelPane (document w));
         excelBody := [PlaceholderRow];
         excelInfo := "No data parsed";
         excelRowInfo := "Showing 0 rows" |}
    else
      {| excelHeader := fullHeader;
         excelBody :=
           map (fun t => DataRow (rowCells t)) (take 50 txs)
             ++ (if 50 <? n then [InfoRow n] else []);
         excelInfo :=
           "Extracted " +:+ text_of_Z n +:+ " transactions from 26AS PDF";
         excelRowInfo :=
           "Showing " +:+ text_of_Z (Z.min 50 n) +:+ " rows" |}.
Proof.
  unfold updateExcelPreview. cbv zeta. destruct (_ =? 0); [done|].
  destruct (50 <? _); project; rewrite appendRows_document; project;
    by rewrite ?app_nil_r.
Qed.

Lemma showAllTransactions_excelBody w :
  transactions (extractedData (js w)) <> [] ->
  excelBody (excelPane (document (showAllTransactions w)))
  = map (fun t => DataRow (rowCells t)) (transactions (extractedData (js w))).
Proof.
  intros Htx. unfold showAllTransactions. cbv zeta.
  destruct (_ =? 0) eqn:Hn; [by apply length_zero_iff_nil in Hn|].
  project. rewrite appendRows_document. by project.
Qed.

Lemma showAllTransactions_nothing w :
  transactions (extractedData (js w)) = [] -> showAllTransactions w = w.
Proof. intros Htx. unfold showAllTransactions. by rewrite Htx. Qed.

Lemma dataRows_map (txs : list obj) :
  dataRows (map (fun t => DataRow (rowCells t)) txs) = map rowCells txs.
Proof.
  unfold dataRows. induction txs as [|t txs IH]; [done|].
  cbn [map]. rewrite <- IH. done.
Qed.

Lemma dataRows_app (a b : list Row) :
  dataRows (a ++ b) = dataRows a ++ dataRows b.
Proof. unfold dataRows. induction a as [|[]]; cbn; by rewrite ?IHa. Qed.

(** What [parsePDF] leaves in the table, the buttons and the notifications
    after a successful answer. *)
Lemma parsePDF_success_excelPane t0 t1 a txs file w :
  selectedFile (js w) = Some file ->
  excelPane (document (parsePDF t0 t1 (Json (UploadSuccess a txs)) w))
  = let n := Z.of_nat (length txs) in
    if n =? 0 then
      {| excelHeader := excelHeader (excelPane (document w));
         excelBody := [PlaceholderRow];
         excelInfo := "No data parsed";
         excelRowInfo := "Showing 0 rows" |}
    else
      {| excelHeader := fullHeader;
         excelBody :=
           map (fun t => DataRow (rowCells t)) (take 50 txs)
             ++ (if 50 <? n then [InfoRow n] else []);
         excelInfo :=
           "Extracted " +:+ text_of_Z n +:+ " transactions from 26AS PDF";
         excelRowInfo :=
           "Showing " +:+ text_of_Z (Z.min 50 n) +:+ " rows" |}.
Proof.
  intros Hfile. unfold parsePDF, parsePDF_request, parsePDF_response, seq.
  rewrite Hfile. project.
  rewrite updateAssesseeInfo_document. project.
  rewrite updateExcelPreview_excelPane. by project.
Qed.



Lemma parsePDF_request_out t0 w :
  out (parsePDF_request t0 w)
  = out w ++
    match selectedFile (js w) with
    | None => [Notification "Please select a 26AS PDF file first." "error"]
    | Some file => [Fetch "/upload" (Request.FormData file)]
    end.
Proof. unfold parsePDF_request. destruct (selectedFile (js w)); frame. Qed.

Lemma parsePDF_response_out t1 r w :
  out (parsePDF_response t1 r w)
  = out w ++
    match upload_failure r, r with
    | Some message, _ =>
        [ConsoleError "Error parsing PDF:";
         Notification ("Error parsing PDF: " +:+ message) "error"]
    | None, Json (UploadSuccess _ txs) =>
        [Notification
           ("Successfully parsed " +:+ text_of_Z (Z.of_nat (length txs))
              +:+ " transactions from 26AS PDF") "success"]
    | None, _ => []
    end.
Proof.
  unfold parsePDF_response.
  destruct r as [m|st|m|[a' txs|e]]; frame; by rewrite <- ?app_assoc.
Qed.

(** ** Zero transactions (C2) *)




(** ** The header row (C3) *)

(** After a parse that found at least one transaction the header is the
    thirteen labels, [Sr.No] first and [PDF Page No] last. *)
Lemma parsePDF_header t0 t1 a txs file w :
  selectedFile (js w) = Some file ->
  txs <> [] ->
  excelHeader (excelPane (document (parsePDF t0 t1 (Json (UploadSuccess a txs)) w)))
  = fullHeader
  /\ length fullHeader = 13%nat
  /\ head fullHeader = Some "Sr.No"
  /\ last fullHeader = Some "PDF Page No".
Proof.
  intros Hfile Htxs. rewrite (parsePDF_success_excelPane _ _ _ _ file) by done.
  cbv zeta. destruct (_ =? 0) eqn:Hn; [by apply length_zero_iff_nil in Hn|].
  done.
Qed.

Lemma resetTool_excelPane w :
  excelPane (document (resetTool w))
  = {| excelHeader := resetHeader;
       excelBody := [PlaceholderRow];
       excelInfo := "No data parsed";
       excelRowInfo := "Showing 0 rows" |}.
Proof.
  unfold resetTool. project. rewrite updateExcelPreview_excelPane.
  frame.
Qed.

(** C3 fails after a reset.  [resetTool] writes a header of eleven labels,
    without [Date of Booking] and [PDF Page No], and the [updateExcelPreview]
    it then calls returns before the place where the thirteen labels are
    written, since the transactions are gone. *)
Theorem resetTool_header (w : World) :
  excelHeader (excelPane (document (resetTool w))) = resetHeader
  /\ length resetHeader = 11%nat
  /\ last resetHeader = Some "Rate %"
  /\ resetHeader <> fullHeader
  /\ excelBody (excelPane (document (resetTool w))) = [PlaceholderRow].
Proof. rewrite resetTool_excelPane. by repeat split. Qed.

(** ** The value model on samples *)

Example decimal_samples :
  decimal false 1 (-1) = Fin false 3602879701896397 (-55)
  /\ decimal false 9007199254740993 0 = Fin false 1 53
  /\ decimal false 17976931348623158 292 = Fin false 9007199254740991 971
  /\ decimal false 17976931348623159 292 = Inf false
  /\ decimal false 1 400 = Inf false
  /\ decimal false 49 (-325) = Fin false 1 (-1074)
  /\ decimal true 2 (-324) = Fin true 0 0.
Proof. repeat split; by vm_compute. Qed.

Example toLocaleString_lakhs :
  toLocaleString_enIN_2 (decimal false 12345675 (-1)) = "12,34,567.50"
  /\ toLocaleString_enIN_2 (of_Z 999) = "999.00"
  /\ toLocaleString_enIN_2 (decimal true 15 (-1)) = "-1.50"
  /\ toLocaleString_enIN_2 (decimal false 1005 (-3)) = "1.01"
  /\ toLocaleString_enIN_2 zero = "0.00"
  /\ toLocaleString_enIN_2 (Fin true 0 0) = "-0.00"
  /\ toLocaleString_enIN_2 (Inf true) = "-∞"
  /\ toLocaleString_enIN_2 NaN = "NaN".
Proof. repeat split; by vm_compute. Qed.

Example toFixed_samples :
  toFixed 2 (decimal false 1 (-1)) = "0.10"
  /\ toFixed 2 (of_Z 10) = "10.00"
  /\ toFixed 2 (decimal false 12345 (-3)) = "12.35"
  /\ toFixed 2 (decimal false 1005 (-3)) = "1.00"
  /\ toFixed 2 (decimal false 8345 (-3)) = "8.35"
  /\ toFixed 0 (decimal true 25 (-1)) = "-3"
  /\ toFixed 2 (decimal true 1 (-3)) = "-0.00"
  /\ toFixed 2 (Fin true 0 0) = "0.00"
  /\ toFixed 2 (decimal false 1 21) = "1e+21"
  /\ toFixed 2 (decimal false 123456789012345680000 0)
     = "123456789012345683968.00"
  /\ toFixed 2 NaN = "NaN".
Proof. repeat split; by vm_compute. Qed.

Example Number_toString_samples :
  Number_toString (of_Z 1200) = "1200"
  /\ Number_toString (decimal false 125 (-1)) = "12.5"
  /\ Number_toString (decimal true 5 (-3)) = "-0.005"
  /\ Number_toString (decimal false 1 21) = "1e+21"
  /\ Number_toString (decimal false 5 (-7)) = "5e-7"
  /\ Number_toString (decimal false 30000000000000004 (-17))
     = "0.30000000000000004"
  /\ Number_toString (decimal false 123456789012345678901 0)
     = "123456789012345680000"
  /\ Number_toString (decimal false 2251799813685248 (-7))
     = "225179981.3685248"
  /\ Number_toString (Fin true 0 0) = "0".
Proof. repeat split; by vm_compute. Qed.

Example parseFloat_samples :
  parseFloat (PStr "  12.50 Cr") = Fin false 25 (-1)
  /\ parseFloat (PStr "1,234.50") = Fin false 1 0
  /\ parseFloat (PStr "-.5e2") = Fin true 25 1
  /\ parseFloat (PStr "  12.5") = Fin false 25 (-1)
  /\ parseFloat (PStr "　﻿  7") = Fin false 7 0
  /\ parseFloat (PStr "1e400") = Inf false
  /\ parseFloat (PStr "-0") = Fin true 0 0
  /\ parseFloat (PStr "-Infinity") = Inf true
  /\ parseFloat (PStr "N/A") = NaN
  /\ parseFloat (PStr "") = NaN
  /\ parseFloat PUndefined = NaN
  /\ parseFloat (PNum (Fin true 0 0)) = Fin false 0 0
  /\ parseFloat (PNum (decimal false 1 (-1))) = decimal false 1 (-1).
Proof. repeat split; by vm_compute. Qed.

Example rowCells_sample :
  rowCells (demoTransaction 1)
  = [ "1"; "ACME LTD"; "MUMA12345B"; "194C"; "30-Jun-2023"; "F"; "";
      "₹12,34,567.00"; "₹1,23,456.70"; "₹NaN"; "₹0.00"; "0.00%"; "2" ].
Proof. by vm_compute. Qed.

Example pdf_named_samples :
  pdf_named demoFile = true
  /\ pdf_named demoImage = false
  /\ pdf_named {| file_name := ".pdf"; file_size := 0 |} = true
  /\ pdf_named {| file_name := "pdf"; file_size := 0 |} = false.
Proof. repeat split; by vm_compute. Qed.

(** White space is of one, two or three bytes, and the first of two or
    three is beyond ASCII. *)
Lemma skip_ws_ascii (c : ascii) (r : string) :
  is_ws c = false -> (nat_of_ascii c < 128)%nat ->
  skip_ws (String c r) = String c r.
Proof.
  intros Hws Hc. cbn [skip_ws]. rewrite Hws.
  assert (H2 : forall c2, is_ws2 c c2 = false).
  { intros c2. unfold is_ws2.
    destruct (Nat.eqb_spec (nat_of_ascii c) 194); [lia|done]. }
  assert (H3 : forall c2 c3, is_ws3 c c2 c3 = false).
  { intros c2 c3. unfold is_ws3. cbv zeta.
    destruct (Nat.eqb_spec (nat_of_ascii c) 225); [lia|].
    destruct (Nat.eqb_spec (nat_of_ascii c) 226); [lia|].
    destruct (Nat.eqb_spec (nat_of_ascii c) 227); [lia|].
    destruct (Nat.eqb_spec (nat_of_ascii c) 239); [lia|]. done. }
  destruct r as [|c2 [|c3 r3]]; by rewrite ?H2, ?H3.
Qed.

(** A text starting with an ASCII character no number can start with
    holds no number for [parseFloat]. *)
Lemma parseFloat_string_no_number (c : ascii) (r : string) :
  is_ws c = false -> (nat_of_ascii c < 128)%nat -> is_digit c = false ->
  c <> "+"%char -> c <> "-"%char -> c <> "."%char -> c <> "I"%char ->
  parseFloat_string (String c r) = NaN.
Proof.
  intros Hws Hc Hd Hplus Hminus Hdot HI.
  unfold parseFloat_string. rewrite skip_ws_ascii by done. clear Hc.
  destruct c as [b0 b1 b2 b3 b4 b5 b6 b7].
  destruct b0, b1, b2, b3, b4, b5, b6, b7;
    try discriminate Hws; try discriminate Hd;
    try (exfalso; apply Hplus; reflexivity);
    try (exfalso; apply Hminus; reflexivity);
    try (exfalso; apply Hdot; reflexivity);
    try (exfalso; apply HI; reflexivity);
    reflexivity.
Qed.

(** ** Defaults of the values of a row (C4) *)

Lemma get_Some (o : obj) (k : string) (v : prim) :
  o !! k = Some v -> get o k = v.
Proof. unfold get. by intros ->. Qed.

Lemma get_None (o : obj) (k : string) :
  o !! k = None -> get o k = PUndefined.
Proof. unfold get. by intros ->. Qed.

Lemma formatAmount_missing (amt : prim) :
  amt = PUndefined \/ amt = PNull \/ amt = PStr "" ->
  formatAmount amt = "0.00".
Proof. by intros [->|[->| ->]]. Qed.

Lemma formatAmount_zero (n : number) :
  num_is_zero n = true -> formatAmount (PNum n) = "0.00".
Proof.
  destruct n as [|neg|neg m e]; try done. cbn [num_is_zero].
  intros ->%N.eqb_eq. by vm_compute.
Qed.

Lemma formatAmount_not_a_number (s : string) :
  s <> "" -> parseFloat_string s = NaN -> formatAmount (PStr s) = "NaN".
Proof.
  intros Hs Hnan. unfold formatAmount, parseFloat. cbn [ToBoolean ToString].
  destruct (String.eqb_spec s ""); [done|].
  cbn [negb andb]. by rewrite Hnan.
Qed.

Lemma rowCells_amount (t : obj) (k : string) (i : nat) :
  In (k, i) amount_columns ->
  rowCells t !! i = Some ("₹" +:+ formatAmount (get t k)).
Proof.
  cbn [In amount_columns].
  by intros [[= <- <-]|[[= <- <-]|[[= <- <-]|[[= <- <-]|[]]]]].
Qed.

(** A text that is no number in an amount field is shown as NaN. *)
Lemma non_numeric_amount_shown_as_NaN :
  demoTransaction 1 !! "tds_deposited" = Some (PStr "N/A")
  /\ rowCells (demoTransaction 1) !! 9%nat = Some "₹NaN"
  /\ rowCells (demoTransaction 1) !! 9%nat <> Some "₹0.00".
Proof.
  assert (H : rowCells (demoTransaction 1) !! 9%nat = Some "₹NaN")
    by (by vm_compute).
  split; [by vm_compute|]. split; [done|]. by rewrite H.
Qed.

(** C4, as the script has it.  In a row of the table a missing status is
    shown as F and a missing rate as 0.00; an amount field that is missing,
    null or the empty string is shown as 0.00, and so is the number 0; an
    amount that is a text [parseFloat] finds no number in is shown as NaN,
    and nothing is thrown. *)
Theorem missing_field_defaults (t : obj) (k : string) (i : nat) :
  In (k, i) amount_columns ->
  (t !! "status" = None -> rowCells t !! 5%nat = Some "F")
  /\ (t !! "rate" = None -> rowCells t !! 11%nat = Some "0.00%")
  /\ (t !! k = None \/ t !! k = Some PNull \/ t !! k = Some (PStr "") ->
      rowCells t !! i = Some "₹0.00")
  /\ (forall n, t !! k = Some (PNum n) -> num_is_zero n = true ->
      rowCells t !! i = Some "₹0.00")
  /\ (forall s, t !! k = Some (PStr s) -> s <> "" ->
      parseFloat_string s = NaN ->
      rowCells t !! i = Some "₹NaN").
Proof.
  intros Hk. rewrite (rowCells_amount t k i Hk).
  split.
  { intros H. unfold rowCells. cbn [lookup list_lookup].
    by rewrite (get_None _ _ H). }
  split.
  { intros H. unfold rowCells. cbn [lookup list_lookup].
    rewrite (get_None _ _ H). by vm_compute. }
  split.
  { intros [H|[H|H]];
      [rewrite (get_None _ _ H)|rewrite (get_Some _ _ _ H)..];
      by rewrite formatAmount_missing by tauto. }
  split.
  { intros n H Hn. by rewrite (get_Some _ _ _ H), formatAmount_zero. }
  intros s H Hs Hnan.
  by rewrite (get_Some _ _ _ H), formatAmount_not_a_number.
Qed.

Lemma missing_field_defaults_witness :
  rowCells (demoTransaction 1) !! 5%nat = Some "F"
  /\ rowCells (demoTransaction 1) !! 11%nat = Some "0.00%"
  /\ rowCells (demoTransaction 1) !! 10%nat = Some "₹0.00"
  /\ rowCells (demoTransaction 1) !! 9%nat = Some "₹NaN".
Proof.
  pose proof (missing_field_defaults (demoTransaction 1) "net_amount" 10%nat
                ltac:(cbn; tauto)) as (Hs & Hr & Hm & _).
  pose proof (missing_field_defaults (demoTransaction 1) "tds_deposited" 9%nat
                ltac:(cbn; tauto)) as (_ & _ & _ & _ & Hn).
  split; [apply Hs; by vm_compute|].
  split; [apply Hr; by vm_compute|].
  split; [apply Hm; left; by vm_compute|].
  apply (Hn "N/A"); [by vm_compute|done|by vm_compute].
Defined.

(** ** The download request (C6) *)

Lemma downloadExcelFile_out r w :
  out (downloadExcelFile r w)
  = out w ++
    let d := extractedData (js w) in
    if Z.of_nat (length (transactions d)) =? 0 then
      [Notification "No data to download." "error"]
    else
      Fetch "/download_excel"
        (Request.JsonBody
           {| Request.assessee_info := assessee d;
              Request.transactions := transactions d |}) ::
      match r, download_failure r with
      | Json (DownloadSuccess download_url filename), _ =>
          [AnchorClick download_url filename;
           Notification "Excel file downloaded successfully!" "success"]
      | _, Some message =>
          [ConsoleError "Error downloading file:";
           Notification ("Error generating Excel file: " +:+ message) "error"]
      | _, None => []
      end.
Proof.
  unfold downloadExcelFile. cbv zeta. destruct (_ =? 0); [done|].
  destruct r as [m|st|m|[u f|e]]; frame; by rewrite <- ?app_assoc.
Qed.

(** C6 fails when the answer of /upload had no [assessee_info]: the
    assessee is then [undefined], [JSON.stringify] leaves the property out,
    and the one request sent has the single field [transactions]; the file
    of the answer is offered all the same. *)
Lemma request_without_assessee_info :
  map Request.keys (download_bodies (out demoNoAssessee)) = [["transactions"]]
  /\ file_offers (out demoNoAssessee)
     = [("/download/26AS_Data.xlsx", "26AS_Data.xlsx")].
Proof. split; by vm_compute. Qed.

(** C6, as the script has it.  When there is something to download,
    [downloadExcelFile] sends one request, to /download_excel, whose body
    is made of the assessee object and the transaction list of
    [extractedData] as they are; its JSON text has the two fields
    [assessee_info] and [transactions], or [transactions] alone when the
    assessee is [undefined]; when the answer is a success the file at
    [download_url] is offered under the [filename] of the answer, and after
    any other answer no file is offered. *)
Theorem download_request_fields (w : World) (r : Fetched DownloadResult) :
  transactions (extractedData (js w)) <> [] ->
  let body :=
    {| Request.assessee_info := assessee (extractedData (js w));
       Request.transactions := transactions (extractedData (js w)) |} in
  out (downloadExcelFile r w)
  = out w ++
    Fetch "/download_excel" (Request.JsonBody body) ::
    match r, download_failure r with
    | Json (DownloadSuccess download_url filename), _ =>
        [AnchorClick download_url filename;
         Notification "Excel file downloaded successfully!" "success"]
    | _, Some message =>
        [ConsoleError "Error downloading file:";
         Notification ("Error generating Excel file: " +:+ message) "error"]
    | _, None => []
    end
  /\ Request.keys body
     = match assessee (extractedData (js w)) with
       | VPrim PUndefined => ["transactions"]
       | _ => ["assessee_info"; "transactions"]
       end.
Proof.
  intros Htx body. split.
  - rewrite downloadExcelFile_out. cbv zeta.
    destruct (_ =? 0) eqn:Hn; [by apply length_zero_iff_nil in Hn|done].
  - unfold Request.keys, body. cbn [Request.assessee_info].
    by destruct (assessee (extractedData (js w))) as [[]|].
Qed.

Lemma download_request_fields_witness :
  out (downloadExcelFile
         (Json (DownloadSuccess "/download/26AS_Data.xlsx" "26AS_Data.xlsx"))
         demoParsed)
  = out demoParsed ++
    [Fetch "/download_excel"
       (Request.JsonBody
          {| Request.assessee_info := VObj demoAssessee;
             Request.transactions := [demoTransaction 1; demoTransaction 2] |});
     AnchorClick "/download/26AS_Data.xlsx" "26AS_Data.xlsx";
     Notification "Excel file downloaded successfully!" "success"].
Proof.
  refine (proj1 (download_request_fields demoParsed
           (Json (DownloadSuccess "/download/26AS_Data.xlsx" "26AS_Data.xlsx"))
           _)).
  intros H%(f_equal length). vm_compute in H. discriminate H.
Defined.

(** ** The order of the rows (C8) *)

Lemma take_min_length {A} (n : nat) (l : list A) :
  take (Nat.min n (length l)) l = take n l.
Proof.
  destruct (Nat.le_ge_cases n (length l)) as [H|H].
  - by rewrite Nat.min_l.
  - rewrite Nat.min_r by done. by rewrite !take_ge by lia.
Qed.

Lemma parsePDF_success_dataRows t0 t1 a txs file w :
  selectedFile (js w) = Some file ->
  dataRows (excelBody (excelPane
    (document (parsePDF t0 t1 (Json (UploadSuccess a txs)) w))))
  = map rowCells (take 50 txs).
Proof.
  intros Hfile. rewrite (parsePDF_success_excelPane _ _ _ _ file) by done.
  cbv zeta. destruct (_ =? 0) eqn:Hn.
  - apply length_zero_iff_nil in Hn. by subst txs.
  - project. rewrite dataRows_app, dataRows_map.
    destruct (50 <? _); by rewrite app_nil_r.
Qed.

(** C8.  After a successful parse the transaction list is the one the
    server sent; the table shows its first [min 50 n] records, one row
    each, in the order of the list; [showAllTransactions] shows all of them
    in that order; and the download request carries the list as it is. *)
Theorem preview_keeps_order (w : World) (file : File) (t0 t1 : Z) (a : value)
    (txs : list obj) (r : Fetched DownloadResult) :
  selectedFile (js w) = Some file ->
  let parsed := parsePDF t0 t1 (Json (UploadSuccess a txs)) w in
  transactions (extractedData (js parsed)) = txs
  /\ dataRows (excelBody (excelPane (document parsed)))
     = map rowCells (take (Nat.min 50 (length txs)) txs)
  /\ (forall i t, (i < 50)%nat -> txs !! i = Some t ->
        dataRows (excelBody (excelPane (document parsed))) !! i
        = Some (rowCells t))
  /\ dataRows (excelBody (excelPane (document (showAllTransactions parsed))))
     = map rowCells txs
  /\ (txs <> [] ->
      exists rest,
        out (downloadExcelFile r parsed)
        = out parsed ++
          Fetch "/download_excel"
            (Request.JsonBody
               {| Request.assessee_info := a;
                  Request.transactions := txs |}) :: rest).
Proof.
  intros Hfile parsed.
  assert (Hjs : extractedData (js parsed)
                = {| assessee := a; transactions := txs;
                     processingStats :=
                       {| startTime := t0; endTime := t1;
                          pageCount := pageCountOf w |} |}).
  { unfold parsed. rewrite parsePDF_js, Hfile. done. }
  assert (Hrows : dataRows (excelBody (excelPane (document parsed)))
                  = map rowCells (take 50 txs)).
  { unfold parsed. by rewrite (parsePDF_success_dataRows _ _ _ _ file). }
  split; [by rewrite Hjs|].
  split; [by rewrite take_min_length|].
  split.
  { intros i t Hi Ht. rewrite Hrows, list_lookup_fmap, lookup_take_lt by done.
    by rewrite Ht. }
  split.
  { destruct txs as [|t txs'] eqn:Htxs.
    - rewrite showAllTransactions_nothing by (by rewrite Hjs).
      by rewrite Hrows.
    - rewrite showAllTransactions_excelBody by (by rewrite Hjs).
      by rewrite dataRows_map, Hjs. }
  intros Htxs. eexists.
  rewrite downloadExcelFile_out, Hjs. cbv zeta. cbn [transactions assessee].
  destruct (_ =? 0) eqn:Hn; [by apply length_zero_iff_nil in Hn|done].
Qed.

Lemma preview_keeps_order_witness :
  let parsed :=
    parsePDF 100 350
      (Json (UploadSuccess (VObj demoAssessee)
               [demoTransaction 2; demoTransaction 1]))
      (handleFile demoFile demoStart) in
  dataRows (excelBody (excelPane (document parsed)))
  = [rowCells (demoTransaction 2); rowCells (demoTransaction 1)].
Proof.
  intros parsed.
  pose proof (preview_keeps_order (handleFile demoFile demoStart) demoFile
                100 350 (VObj demoAssessee)
                [demoTransaction 2; demoTransaction 1] (HttpError 500)
                eq_refl) as (_ & Hrows & _).
  exact Hrows.
Defined.

(** ** The assessee object (C5) *)

Lemma blankAssessee_keys :
  dom blankAssessee = identity_keys
  /\ forall k, k ∈ identity_keys -> blankAssessee !! k = Some (PStr "").
Proof.
  split.
  - unfold blankAssessee, identity_keys.
    rewrite !dom_insert_L, dom_empty_L. set_solver.
  - intros k. unfold identity_keys, blankAssessee. rewrite !elem_of_union, !elem_of_singleton.
    intros [[[[->| ->]| ->]| ->]| ->]; by vm_compute.
Qed.

(** After a parse the assessee object is the one the server sent, here
    with [financial_year] and [assessment_year] for keys. *)
Lemma server_assessee_keeps_its_keys :
  assessee (extractedData (js demoParsed)) = VObj demoAssessee
  /\ has_identity_keys (assessee (extractedData (js demoParsed))) = false.
Proof. split; by vm_compute. Qed.

Lemma init_js markup saved evaluated today :
  js (init markup saved evaluated today)
  = {| selectedFile := None; extractedData := blankExtractedData;
       pdfDocument := None; currentPage := 1; totalPages := 0;
       userData :=
         match saved with
         | Some savedData =>
             if negb (lastResetDate savedData =? today)%string
             then {| totalFilesProcessed := totalFilesProcessed savedData;
                     todayFilesProcessed := 0;
                     lastResetDate := today |}
             else savedData
         | None =>
             {| totalFilesProcessed := 0; todayFilesProcessed := 0;
                lastResetDate := evaluated |}
         end |}.
Proof.
  unfold init, loadUserData. destruct saved as [savedData|]; project; [|done].
  destruct (negb _); by project.
Qed.

Lemma step_assessee w e :
  assigns_assessee e = false ->
  assessee (extractedData (js (step w e))) = assessee (extractedData (js w)).
Proof.
  destruct e as [file|loaded r|t0|t1 r| | | |r| |r|r|i];
    cbn [step assigns_assessee]; intros He; try done.
  - by rewrite handleFile_rejected.
  - destruct loaded; [by rewrite loadPDF_js|by rewrite loadPDF_failed_js].
  - rewrite parsePDF_request_js. by destruct (selectedFile (js w)).
  - rewrite parsePDF_response_js. by destruct r as [m|st|m|[a txs|e]].
  - by rewrite showAllTransactions_js.
  - by rewrite showDownloadModal_js.
  - by rewrite downloadExcelFile_extractedData.
  - rewrite prevPage_js. by destruct (1 <? _).
  - rewrite nextPage_js. by destruct (_ <? _).
Qed.

(** C5, as the script has it.  The object the script itself writes has
    exactly the keys name, pan, financialYear, address and assessmentYear,
    each with the empty string; the page starts with it, and accepting a
    file and [resetTool] put it back.  A successful parse replaces it by the
    [assessee_info] of the answer, whatever that is, and no other event
    assigns it. *)
Theorem assessee_lifecycle (w : World) (e : Event) (file : File)
    (t0 t1 : Z) (a : value) (txs : list obj)
    (markup : Dom) (saved : option UserData) (evaluated today : string) :
  (dom blankAssessee = identity_keys
   /\ forall k, k ∈ identity_keys -> blankAssessee !! k = Some (PStr ""))
  /\ assessee (extractedData (js (init markup saved evaluated today)))
     = VObj blankAssessee
  /\ (pdf_named file = true ->
      assessee (extractedData (js (handleFile file w))) = VObj blankAssessee)
  /\ assessee (extractedData (js (resetTool w))) = VObj blankAssessee
  /\ (selectedFile (js w) = Some file ->
      assessee (extractedData
                  (js (parsePDF t0 t1 (Json (UploadSuccess a txs)) w))) = a)
  /\ (assigns_assessee e = false ->
      assessee (extractedData (js (step w e)))
      = assessee (extractedData (js w))).
Proof.
  split; [apply blankAssessee_keys|].
  split; [by rewrite init_js|].
  split; [intros Hf; by rewrite handleFile_accepted_js|].
  split; [by rewrite resetTool_js|].
  split; [intros Hf; by rewrite parsePDF_js, Hf|].
  apply step_assessee.
Qed.

Lemma assessee_lifecycle_witness :
  assessee (extractedData (js (handleFile demoFile demoParsed)))
  = VObj blankAssessee
  /\ assessee (extractedData
       (js (parsePDF 100 350 (Json (UploadSuccess (VObj demoAssessee) []))
              (handleFile demoFile demoStart))))
     = VObj demoAssessee
  /\ assessee (extractedData (js (step demoParsed DownloadClicked)))
     = assessee (extractedData (js demoParsed)).
Proof.
  pose proof (assessee_lifecycle demoParsed DownloadClicked demoFile 100 350
                (VObj demoAssessee) [] demoMarkup None "" "")
    as (_ & _ & Hfile & _ & _ & Hstep).
  pose proof (assessee_lifecycle (handleFile demoFile demoStart)
                DownloadClicked demoFile 100 350
                (VObj demoAssessee) [] demoMarkup None "" "")
    as (_ & _ & _ & _ & Hparse & _).
  split; [exact (Hfile eq_refl)|].
  split; [|exact (Hstep eq_refl)].
  apply Hparse. by vm_compute.
Defined.

(** ** The financial year shown (C7) *)

Lemma ToBoolean_logical_or (a b : prim) :
  ToBoolean (logical_or a b) = ToBoolean a || ToBoolean b.
Proof. unfold logical_or. by destruct (ToBoolean a) eqn:Ha; rewrite ?Ha. Qed.

(** Neither field decides alone what is shown: two objects with the same
    [financial_year] (none) are shown differently, and so are two objects
    with the same [financialYear]; and no other single key decides it
    either. *)
Lemma financial_year_needs_both_fields :
  (demoCamel "2022-23" !! "financial_year"
   = demoCamel "2023-24" !! "financial_year"
   /\ shownFinancialYear (demoCamel "2022-23") = "2022-23"
   /\ shownFinancialYear (demoCamel "2023-24") = "2023-24")
  /\ (demoBoth "2023-24" !! "financialYear"
      = demoCamel "2022-23" !! "financialYear"
      /\ shownFinancialYear (demoBoth "2023-24") = "2023-24"
      /\ shownFinancialYear (demoCamel "2022-23") = "2022-23")
  /\ ~ (exists k : string, forall a b : obj,
          a !! k = b !! k -> shownFinancialYear a = shownFinancialYear b).
Proof.
  split; [repeat split; by vm_compute|].
  split; [repeat split; by vm_compute|].
  intros [k H]. destruct (decide (k = "financial_year")) as [->|Hk].
  - specialize (H (demoCamel "2022-23") (demoCamel "2023-24")).
    assert (Hshown : shownFinancialYear (demoCamel "2022-23")
                     = shownFinancialYear (demoCamel "2023-24"))
      by (apply H; by vm_compute).
    vm_compute in Hshown. discriminate Hshown.
  - specialize (H (demoBoth "2023-24") (demoBoth "2024-25")).
    assert (Hshown : shownFinancialYear (demoBoth "2023-24")
                     = shownFinancialYear (demoBoth "2024-25")).
    { apply H. unfold demoBoth. by rewrite !lookup_insert_ne. }
    vm_compute in Hshown. discriminate Hshown.
Qed.

(** C7, as the script has it.  When the panel is filled (one of name, pan,
    financialYear and financial_year is truthy), the financial year shown is
    [financial_year] if that is truthy, else [financialYear] if that is
    truthy, else the text Not Available; otherwise the panel is left as it
    is. *)
Theorem financial_year_fallback (w : World) (o : obj) :
  assessee (extractedData (js w)) = VObj o ->
  let filled :=
    ToBoolean (get o "name") || ToBoolean (get o "pan")
    || ToBoolean (get o "financialYear")
    || ToBoolean (get o "financial_year") in
  (filled = true ->
   assesseeFY (assesseePanel (document (updateAssesseeInfo w)))
   = if ToBoolean (get o "financial_year")
     then ToString (get o "financial_year")
     else if ToBoolean (get o "financialYear")
          then ToString (get o "financialYear")
          else "Not Available")
  /\ (filled = false -> updateAssesseeInfo w = w).
Proof.
  intros Ha filled. unfold updateAssesseeInfo. rewrite Ha.
  cbn [truthy prop andb]. rewrite !ToBoolean_logical_or. fold filled.
  destruct filled; [|by split].
  split; [intros _|done].
  project. unfold logical_or.
  destruct (ToBoolean (get o "financial_year")) eqn:Hsnake;
    rewrite ?Hsnake; [done|].
  by destruct (ToBoolean (get o "financialYear")).
Qed.

Lemma financial_year_fallback_witness :
  assesseeFY (assesseePanel (document (updateAssesseeInfo demoParsed)))
  = "2023-24".
Proof.
  apply (financial_year_fallback demoParsed demoAssessee); by vm_compute.
Defined.

(** ** Files that are not PDFs (C9) *)

Lemma uploads_app (a b : list Effect) :
  uploads (a ++ b) = uploads a ++ uploads b.
Proof. unfold uploads. induction a as [|[| |url []|]]; cbn; by rewrite ?IHa. Qed.

Lemma renderPDFPage_uploads p r w :
  uploads (out (renderPDFPage p r w)) = uploads (out w).
Proof.
  unfold renderPDFPage.
  destruct (pdfDocument (js w)), r; project;
    rewrite ?uploads_app; cbn; by rewrite ?app_nil_r.
Qed.

(** The only upload is the one of [parsePDF], and it sends the file held
    in [selectedFile]. *)
Lemma step_uploads w e :
  uploads (out (step w e))
  = uploads (out w) ++
    match e, selectedFile (js w) with
    | ParseClicked _, Some file => [file]
    | _, _ => []
    end.
Proof.
  destruct e as [file|loaded r|t0|t1 r| | | |r| |r|r|i]; cbn [step].
  3: { unfold parsePDF_request. destruct (selectedFile (js w)); project.
       - by rewrite uploads_app.
       - by rewrite uploads_app. }
  3: { rewrite parsePDF_response_out, uploads_app.
       by destruct r as [m|st|m|[a txs|e]]. }
  all: rewrite app_nil_r.
  - unfold handleFile. destruct (negb _); frame.
    by rewrite uploads_app, app_nil_r.
  - unfold loadPDF. destruct loaded; project.
    + rewrite renderPDFPage_uploads. frame.
    + by rewrite !uploads_app, !app_nil_r.
  - unfold resetTool. frame. by rewrite uploads_app, app_nil_r.
  - unfold showAllTransactions. destruct (_ =? 0); frame.
  - unfold showDownloadModal. destruct (_ =? 0); frame.
    by rewrite uploads_app, app_nil_r.
  - rewrite downloadExcelFile_out. cbv zeta. rewrite uploads_app.
    destruct (_ =? 0); [by rewrite app_nil_r|].
    destruct r as [m|st|m|[u f|e]]; by rewrite app_nil_r.
  - frame.
  - unfold prevPage. destruct (1 <? _); project;
      rewrite ?renderPDFPage_uploads; frame.
  - unfold nextPage. destruct (_ <? _); project;
      rewrite ?renderPDFPage_uploads; frame.
  - frame.
Qed.

Lemma step_selectedFile w e :
  selectedFile (js (step w e))
  = match e with
    | FileChosen file =>
        if pdf_named file then Some file else selectedFile (js w)
    | ResetClicked => None
    | _ => selectedFile (js w)
    end.
Proof.
  destruct e as [file|loaded r|t0|t1 r| | | |r| |r|r|i]; cbn [step].
  - destruct (pdf_named file) eqn:Hf.
    + by rewrite handleFile_accepted_js.
    + by rewrite handleFile_rejected.
  - destruct loaded; [by rewrite loadPDF_js|by rewrite loadPDF_failed_js].
  - rewrite parsePDF_request_js. by destruct (selectedFile (js w)) eqn:Hs.
  - rewrite parsePDF_response_js. by destruct r as [m|st|m|[a txs|e]].
  - by rewrite resetTool_js.
  - by rewrite showAllTransactions_js.
  - by rewrite showDownloadModal_js.
  - unfold downloadExcelFile. destruct (_ =? 0); [done|].
    destruct r as [m|st|m|[u f|e]]; frame.
  - done.
  - rewrite prevPage_js. by destruct (1 <? _).
  - rewrite nextPage_js. by destruct (_ <? _).
  - done.
Qed.

Lemma step_only_pdfs w e : only_pdfs w -> only_pdfs (step w e).
Proof.
  intros [Hsel Hup]. split.
  - intros file. rewrite step_selectedFile.
    destruct e as [chosen|loaded r|t0|t1 r| | | |r| |r|r|i]; try apply Hsel;
      [|done].
    destruct (pdf_named chosen) eqn:Hc; [by intros [= <-]|apply Hsel].
  - rewrite step_uploads. apply Forall_app. split; [done|].
    destruct e as [chosen|loaded r|t0|t1 r| | | |r| |r|r|i];
      try apply Forall_nil_2.
    all: destruct (selectedFile (js w)) as [file|] eqn:Hfile;
      try apply Forall_nil_2.
    apply Forall_cons. split; [by apply Hsel|apply Forall_nil_2].
Qed.

Lemma run_only_pdfs events w : only_pdfs w -> only_pdfs (run w events).
Proof.
  unfold run. revert w.
  induction events as [|e events IH]; intros w Hw; cbn [fold_left]; [done|].
  by apply IH, step_only_pdfs.
Qed.

Lemma init_only_pdfs markup saved evaluated today :
  only_pdfs (init markup saved evaluated today).
Proof.
  split.
  - by rewrite init_js.
  - unfold init, loadUserData. destruct saved as [savedData|]; project.
    + destruct (negb _); project; apply Forall_nil_2.
    + apply Forall_nil_2.
Qed.

(** C9.  A file whose lower-cased name does not end in .pdf is answered
    with the error notification and nothing else: the global variables
    ([selectedFile], [extractedData] and the rest), the document (the parse
    button with it) and the storage are as before.  And in a whole session,
    from the loading of the page on, such a file is never sent to
    /upload. *)
Theorem handleFile_rejects_other_files (w : World) (file : File)
    (markup : Dom) (saved : option UserData) (evaluated today : string)
    (events : list Event) :
  pdf_named file = false ->
  (js (handleFile file w) = js w
   /\ document (handleFile file w) = document w
   /\ localStorage (handleFile file w) = localStorage w
   /\ out (handleFile file w)
      = out w ++ [Notification "Please select a PDF file." "error"])
  /\ selectedFile (js (run (init markup saved evaluated today) events))
     <> Some file
  /\ file ∉ uploads (out (run (init markup saved evaluated today) events)).
Proof.
  intros Hname. split.
  { by rewrite handleFile_rejected. }
  destruct (run_only_pdfs events _
              (init_only_pdfs markup saved evaluated today)) as [Hsel Hup].
  split.
  - intros Hs. apply Hsel in Hs. congruence.
  - intros Hin. rewrite Forall_forall in Hup. apply Hup in Hin. congruence.
Qed.

Lemma handleFile_rejects_other_files_witness :
  js (handleFile demoImage demoParsed) = js demoParsed
  /\ parseBtn_disabled (buttons (document (handleFile demoImage demoParsed)))
     = parseBtn_disabled (buttons (document demoParsed))
  /\ demoImage ∉ uploads (out (run demoStart
                                  [FileChosen demoFile; FileChosen demoImage;
                                   ParseClicked 100;
                                   ParseAnswered 350 (HttpError 500)])).
Proof.
  pose proof (handleFile_rejects_other_files demoParsed demoImage demoMarkup
                None "Mon Nov 02 2026" "Mon Nov 02 2026"
                [FileChosen demoFile; FileChosen demoImage;
                 ParseClicked 100; ParseAnswered 350 (HttpError 500)] eq_refl)
    as ((Hjs & Hdoc & _) & _ & Hup).
  split; [exact Hjs|]. split; [by rewrite Hdoc|exact Hup].
Defined.

(** ** The usage counters (C10) *)

Lemma downloadExcelFile_js r w :
  js (downloadExcelFile r w)
  = if download_succeeds r w then
      {| selectedFile := selectedFile (js w);
         extractedData := extractedData (js w);
         pdfDocument := pdfDocument (js w);
         currentPage := currentPage (js w);
         totalPages := totalPages (js w);
         userData :=
           {| totalFilesProcessed := totalFilesProcessed (userData (js w)) + 1;
              todayFilesProcessed := todayFilesProcessed (userData (js w)) + 1;
              lastResetDate := lastResetDate (userData (js w)) |} |}
    else js w.
Proof.
  unfold downloadExcelFile, download_succeeds. cbv zeta.
  destruct r as [m|st|m|[u f|e]]; destruct (_ =? 0); frame.
Qed.

Lemma downloadExcelFile_localStorage r w :
  localStorage (downloadExcelFile r w)
  = if download_succeeds r w
    then Some (userData (js (downloadExcelFile r w)))
    else localStorage w.
Proof.
  rewrite downloadExcelFile_js.
  unfold downloadExcelFile, download_succeeds. cbv zeta.
  destruct r as [m|st|m|[u f|e]]; destruct (_ =? 0); frame.
Qed.

Lemma step_userData w e :
  is_confirm e = false ->
  userData (js (step w e)) = userData (js w)
  /\ localStorage (step w e) = localStorage w.
Proof.
  destruct e as [file|loaded r|t0|t1 r| | | |r| |r|r|i];
    cbn [step is_confirm]; intros He.
  8: done.
  8: done.
  10: done.
  - rewrite handleFile_localStorage. split; [|done].
    destruct (pdf_named file) eqn:Hf.
    + by rewrite handleFile_accepted_js.
    + by rewrite handleFile_rejected.
  - rewrite loadPDF_localStorage. split; [|done].
    destruct loaded; [by rewrite loadPDF_js|by rewrite loadPDF_failed_js].
  - rewrite parsePDF_request_localStorage, parsePDF_request_js.
    by destruct (selectedFile (js w)).
  - rewrite parsePDF_response_localStorage, parsePDF_response_js.
    by destruct r as [m|st|m|[a txs|e]].
  - by rewrite resetTool_localStorage, resetTool_js.
  - by rewrite showAllTransactions_localStorage, showAllTransactions_js.
  - by rewrite showDownloadModal_localStorage, showDownloadModal_js.
  - rewrite prevPage_localStorage, prevPage_js. by destruct (1 <? _).
  - rewrite nextPage_localStorage, nextPage_js. by destruct (_ <? _).
Qed.

Lemma init_localStorage markup saved evaluated today :
  localStorage (init markup saved evaluated today)
  = match saved with
    | Some _ => Some (userData (js (init markup saved evaluated today)))
    | None => None
    end.
Proof.
  rewrite init_js. unfold init, loadUserData.
  destruct saved as [[total count date]|]; project; [|done].
  destruct (negb _); by project.
Qed.

(** C10.  A download the server answers with a file adds 1 to each of the
    two counters, saves them, and leaves the date of the last reset and
    every other global variable as it was; any other end of
    [downloadExcelFile] and every other event leave the counters and the
    storage alone.  When the page is loaded with counters saved on another
    day, today's counter restarts at 0 with the new date and the total is
    the saved one; loaded on the same day, both are the saved ones. *)
Theorem usage_counters_frame (w : World) (e : Event)
    (r : Fetched DownloadResult) (markup : Dom) (saved : UserData)
    (evaluated today : string) :
  (download_succeeds r w = true ->
   js (downloadExcelFile r w)
   = {| selectedFile := selectedFile (js w);
        extractedData := extractedData (js w);
        pdfDocument := pdfDocument (js w);
        currentPage := currentPage (js w);
        totalPages := totalPages (js w);
        userData :=
          {| totalFilesProcessed := totalFilesProcessed (userData (js w)) + 1;
             todayFilesProcessed := todayFilesProcessed (userData (js w)) + 1;
             lastResetDate := lastResetDate (userData (js w)) |} |}
   /\ localStorage (downloadExcelFile r w)
      = Some (userData (js (downloadExcelFile r w))))
  /\ (download_succeeds r w = false ->
      js (downloadExcelFile r w) = js w
      /\ localStorage (downloadExcelFile r w) = localStorage w)
  /\ (is_confirm e = false ->
      userData (js (step w e)) = userData (js w)
      /\ localStorage (step w e) = localStorage w)
  /\ (lastResetDate saved <> today ->
      userData (js (init markup (Some saved) evaluated today))
      = {| totalFilesProcessed := totalFilesProcessed saved;
           todayFilesProcessed := 0;
           lastResetDate := today |}
      /\ localStorage (init markup (Some saved) evaluated today)
         = Some {| totalFilesProcessed := totalFilesProcessed saved;
                   todayFilesProcessed := 0;
                   lastResetDate := today |})
  /\ (lastResetDate saved = today ->
      userData (js (init markup (Some saved) evaluated today)) = saved
      /\ localStorage (init markup (Some saved) evaluated today) = Some saved).
Proof.
  split.
  { intros Hr. by rewrite downloadExcelFile_localStorage,
      downloadExcelFile_js, Hr. }
  split.
  { intros Hr. by rewrite downloadExcelFile_localStorage,
      downloadExcelFile_js, Hr. }
  split; [apply step_userData|].
  rewrite init_localStorage, init_js. cbn [userData js].
  destruct (String.eqb_spec (lastResetDate saved) today) as [Heq|Hne];
    cbn [negb]; split; intros H; try done.
Qed.

Lemma usage_counters_frame_witness :
  userData (js (downloadExcelFile
                  (Json (DownloadSuccess "/download/26AS_Data.xlsx"
                           "26AS_Data.xlsx"))
                  demoParsed))
  = {| totalFilesProcessed := 1; todayFilesProcessed := 1;
       lastResetDate := "Mon Nov 02 2026" |}
  /\ userData (js (downloadExcelFile (HttpError 500) demoParsed))
     = userData (js demoParsed)
  /\ userData (js (step demoParsed ResetClicked)) = userData (js demoParsed)
  /\ userData (js (init demoMarkup (Some demoSaved) "Mon Nov 02 2026"
                     "Mon Nov 02 2026"))
     = {| totalFilesProcessed := 41; todayFilesProcessed := 0;
          lastResetDate := "Mon Nov 02 2026" |}.
Proof.
  pose proof (usage_counters_frame demoParsed ResetClicked
                (Json (DownloadSuccess "/download/26AS_Data.xlsx"
                         "26AS_Data.xlsx"))
                demoMarkup demoSaved "Mon Nov 02 2026" "Mon Nov 02 2026")
    as (Hok & _ & Hstep & Hday & _).
  pose proof (usage_counters_frame demoParsed ResetClicked (HttpError 500)
                demoMarkup demoSaved "Mon Nov 02 2026" "Mon Nov 02 2026")
    as (_ & Hfail & _).
  split.
  { destruct Hok as [Hjs _]; [by vm_compute|]. rewrite Hjs. by vm_compute. }
  split.
  { destruct Hfail as [Hjs _]; [by vm_compute|]. by rewrite Hjs. }
  split.
  { by destruct (Hstep eq_refl) as [Hu _]. }
  destruct Hday as [Hu _]; [by vm_compute|]. exact Hu.
Defined.

(** * Further properties of the script *)

(** ** Turning pages *)

Lemma step_pages w e :
  currentPage (js (step w e)) = currentPage (js w)
  /\ totalPages (js (step w e)) = totalPages (js w)
  \/ currentPage (js (step w e)) = 1
  \/ (exists r, e = PrevClicked r)
     /\ 1 < currentPage (js w)
     /\ currentPage (js (step w e)) = currentPage (js w) - 1
     /\ totalPages (js (step w e)) = totalPages (js w)
  \/ (exists r, e = NextClicked r)
     /\ currentPage (js w) < totalPages (js w)
     /\ currentPage (js (step w e)) = currentPage (js w) + 1
     /\ totalPages (js (step w e)) = totalPages (js w).
Proof.
  destruct e as [file|loaded r|t0|t1 r| | | |r| |r|r|i]; cbn [step].
  - left. destruct (pdf_named file) eqn:Hf.
    + by rewrite handleFile_accepted_js.
    + by rewrite handleFile_rejected.
  - destruct loaded; [right; left; by rewrite loadPDF_js|].
    left. by rewrite loadPDF_failed_js.
  - left. rewrite parsePDF_request_js. by destruct (selectedFile (js w)).
  - left. rewrite parsePDF_response_js. by destruct r as [m|st|m|[a txs|e]].
  - right; left. by rewrite resetTool_js.
  - left. by rewrite showAllTransactions_js.
  - left. by rewrite showDownloadModal_js.
  - left. rewrite downloadExcelFile_js. by destruct (download_succeeds r w).
  - by left.
  - rewrite prevPage_js. destruct (Z.ltb_spec 1 (currentPage (js w))).
    + right; right; left. eauto.
    + by left.
  - rewrite nextPage_js.
    destruct (Z.ltb_spec (currentPage (js w)) (totalPages (js w))).
    + right; right; right. eauto.
    + by left.
  - by left.
Qed.

Lemma step_page_in_range w e : page_in_range w -> page_in_range (step w e).
Proof.
  unfold page_in_range. intros Hw.
  destruct (step_pages w e)
    as [[-> ->]|[->|[(_ & Hlt & -> & ->)|(_ & Hlt & -> & ->)]]];
    [done|by left|..]; lia.
Qed.

(** X1.  In a session the page number never leaves the document: it is 1,
    or above 1 and at most the number of pages of the open document,
    whatever is chosen, answered, clicked or reset, in whatever order. *)
Theorem currentPage_stays_in_document (markup : Dom)
    (saved : option UserData) (evaluated today : string)
    (events : list Event) :
  page_in_range (run (init markup saved evaluated today) events).
Proof.
  assert (Hinit : page_in_range (init markup saved evaluated today)).
  { left. by rewrite init_js. }
  revert Hinit. generalize (init markup saved evaluated today).
  unfold run. induction events as [|e events IH]; intros w Hw; [done|].
  cbn [fold_left]. by apply IH, step_page_in_range.
Qed.

Lemma globals_eta (g : Globals) :
  {| selectedFile := selectedFile g; extractedData := extractedData g;
     pdfDocument := pdfDocument g; currentPage := currentPage g;
     totalPages := totalPages g; userData := userData g |} = g.
Proof. by destruct g. Qed.

(** X2.  Next and then Previous bring back the page that was shown, and so
    do Previous and then Next, however the renderings in between ended; at
    the first page Previous does nothing at all, and at the last page (or
    with no document) Next does nothing at all. *)
Theorem page_turn_round_trip (w : World) (r1 r2 : Rendering) :
  (1 <= currentPage (js w) -> currentPage (js w) < totalPages (js w) ->
   js (prevPage r2 (nextPage r1 w)) = js w)
  /\ (1 < currentPage (js w) -> currentPage (js w) <= totalPages (js w) ->
      js (nextPage r2 (prevPage r1 w)) = js w)
  /\ (currentPage (js w) <= 1 -> prevPage r1 w = w)
  /\ (totalPages (js w) <= currentPage (js w) -> nextPage r1 w = w).
Proof.
  split; [|split; [|split]].
  - intros H1 Hlt.
    assert (Hn : js (nextPage r1 w)
                 = js (set_currentPage (currentPage (js w) + 1) w)).
    { rewrite nextPage_js.
      by destruct (Z.ltb_spec (currentPage (js w)) (totalPages (js w)));
        [|lia]. }
    rewrite prevPage_js. project. rewrite !Hn. project.
    destruct (Z.ltb_spec 1 (currentPage (js w) + 1)); [|lia].
    etransitivity; [|apply globals_eta]. f_equal. lia.
  - intros H1 Hle.
    assert (Hp : js (prevPage r1 w)
                 = js (set_currentPage (currentPage (js w) - 1) w)).
    { rewrite prevPage_js.
      by destruct (Z.ltb_spec 1 (currentPage (js w))); [|lia]. }
    rewrite nextPage_js. project. rewrite !Hp. project.
    destruct (Z.ltb_spec (currentPage (js w) - 1) (totalPages (js w))); [|lia].
    etransitivity; [|apply globals_eta]. f_equal. lia.
  - intros H. unfold prevPage.
    by destruct (Z.ltb_spec 1 (currentPage (js w))); [lia|].
  - intros H. unfold nextPage.
    by destruct (Z.ltb_spec (currentPage (js w)) (totalPages (js w))); [lia|].
Qed.

Lemma page_turn_round_trip_witness :
  let w := loadPDF (Some demoPdf) Rendered (handleFile demoFile demoStart) in
  currentPage (js (prevPage Rendered (nextPage RenderRejected w))) = 1
  /\ prevPage Rendered w = w.
Proof.
  intros w.
  pose proof (page_turn_round_trip w RenderRejected Rendered)
    as (Hnp & _ & Hfirst & _).
  split.
  - rewrite Hnp; [reflexivity|by vm_compute..].
  - pose proof (page_turn_round_trip w Rendered Rendered) as (_ & _ & H & _).
    apply H. by vm_compute.
Defined.

(** X3.  After Next on an open document the page number has moved by one.
    When the page is drawn, the viewer holds its canvas, the indicator reads
    Page c of t, Previous is enabled and Next is disabled exactly on the
    last page.  When [getPage] is rejected the number has moved all the
    same, while the viewer, the indicator and the two buttons still show
    the page before, and the user gets the error notification. *)
Theorem next_page_shown (w : World) (pdf : PdfDocument) :
  pdfDocument (js w) = Some pdf ->
  1 <= currentPage (js w) ->
  currentPage (js w) < totalPages (js w) ->
  let page := currentPage (js w) + 1 in
  let drawn := nextPage Rendered w in
  let failed := nextPage GetPageRejected w in
  (currentPage (js drawn) = page
   /\ pdfViewer (pdfPane (document drawn)) = ViewerCanvas page
   /\ pageInfo (pdfPane (document drawn))
      = "Page " +:+ text_of_Z page +:+ " of "
          +:+ text_of_Z (totalPages (js w))
   /\ prevPage_disabled (buttons (document drawn)) = false
   /\ nextPage_disabled (buttons (document drawn))
      = (totalPages (js w) <=? page))
  /\ (currentPage (js failed) = page
      /\ document failed = document w
      /\ out failed
         = out w ++ [ConsoleError "Error rendering PDF page:";
                     Notification "Error rendering PDF page." "error"]).
Proof.
  intros Hpdf H1 Hlt page drawn failed.
  unfold drawn, failed, nextPage, renderPDFPage.
  destruct (Z.ltb_spec (currentPage (js w)) (totalPages (js w))); [|lia].
  project. rewrite Hpdf. project. fold page.
  destruct (Z.leb_spec page 1); [lia|].
  repeat split; try done. by rewrite <- app_assoc.
Qed.

Lemma next_page_shown_witness :
  let w := loadPDF (Some demoPdf) Rendered (handleFile demoFile demoStart) in
  pageInfo (pdfPane (document (nextPage Rendered w))) = "Page 2 of 3"
  /\ nextPage_disabled (buttons (document (nextPage Rendered w))) = false.
Proof.
  intros w.
  pose proof (next_page_shown w demoPdf eq_refl ltac:(by vm_compute)
                ltac:(by vm_compute)) as ((_ & _ & Hinfo & _ & Hnext) & _).
  split; [rewrite Hinfo|rewrite Hnext]; by vm_compute.
Defined.

(** ** Reset *)

Lemma resetTool_document w :
  document (resetTool w)
  = {| buttons :=
         {| parseBtn_disabled := true; downloadBtn_disabled := true;
            confirmDownload_disabled :=
              confirmDownload_disabled (buttons (document w));
            prevPage_disabled := prevPage_disabled (buttons (document w));
            nextPage_disabled := nextPage_disabled (buttons (document w)) |};
       pdfPane :=
         {| pdfViewer := ViewerNoPdf; pdfInfo := PdfInfoNone;
            pdfControls_shown := false;
            pageInfo := pageInfo (pdfPane (document w)) |};
       excelPane :=
         {| excelHeader := resetHeader; excelBody := [PlaceholderRow];
            excelInfo := "No data parsed";
            excelRowInfo := "Showing 0 rows" |};
       modal := modal (document w);
       assesseePanel :=
         {| assesseeInfo_visible := false;
            assesseeName := assesseeName (assesseePanel (document w));
            assesseePAN := assesseePAN (assesseePanel (document w));
            assesseeFY := assesseeFY (assesseePanel (document w)) |};
       summary :=
         {| fileCountEl := "0"; summaryFileCount := "0";
            summaryTransactionCount := "0";
            transactionCounter_shown := false; counterValue := "0";
            totalFilesCounter := totalFilesCounter (summary (document w));
            todayFilesCounter := todayFilesCounter (summary (document w)) |};
       activePreviewTab := 0 |}.
Proof.
  unfold resetTool. project.
  rewrite updateExcelPreview_document, updateExcelPreview_excelPane.
  unfold updateFileCount. project. done.
Qed.

Lemma resetTool_out w :
  out (resetTool w)
  = out w ++ [Notification "Tool has been reset successfully." "success"].
Proof. unfold resetTool. frame. Qed.

(** X4.  Reset forgets the file, the open document and the extracted data
    whatever they were, and keeps the usage counters and the storage; a
    second Reset changes nothing any more, apart from notifying again. *)
Theorem resetTool_idempotent (w : World) :
  js (resetTool w)
  = {| selectedFile := None; extractedData := blankExtractedData;
       pdfDocument := None; currentPage := 1; totalPages := 0;
       userData := userData (js w) |}
  /\ localStorage (resetTool w) = localStorage w
  /\ js (resetTool (resetTool w)) = js (resetTool w)
  /\ document (resetTool (resetTool w)) = document (resetTool w)
  /\ localStorage (resetTool (resetTool w)) = localStorage (resetTool w).
Proof.
  split; [apply resetTool_js|].
  split; [apply resetTool_localStorage|].
  split; [by rewrite !resetTool_js|].
  split; [by rewrite !resetTool_document|].
  by rewrite !resetTool_localStorage.
Qed.

(** X5.  After a Reset nothing can be sent: Parse, Download and the
    confirmation in the modal each only raise their error notification,
    whatever the server would have answered, and leave the global
    variables, the document and the storage as Reset left them. *)
Theorem nothing_to_do_after_reset (w : World) (t0 t1 : Z)
    (u : Fetched UploadResult) (d : Fetched DownloadResult) :
  parsePDF t0 t1 u (resetTool w)
  = showNotification "Please select a 26AS PDF file first." "error"
      (resetTool w)
  /\ showDownloadModal (resetTool w)
     = showNotification
         "No data to download. Please parse a 26AS PDF first." "error"
         (resetTool w)
  /\ downloadExcelFile d (resetTool w)
     = showNotification "No data to download." "error" (resetTool w)
  /\ showAllTransactions (resetTool w) = resetTool w.
Proof.
  assert (Hjs := resetTool_js w).
  split; [unfold parsePDF, parsePDF_request; by rewrite Hjs|].
  split; [unfold showDownloadModal; by rewrite Hjs|].
  split; [unfold downloadExcelFile; by rewrite Hjs|].
  unfold showAllTransactions. by rewrite Hjs.
Qed.

(** ** Parsing *)



(** X7.  The panel of the assessee is only ever filled, never cleared by a
    parse: when the answer of the server has no assessee object, or one
    with none of name, pan, financialYear and financial_year, the panel
    keeps what it showed before (the assessee of the parse before, if there
    was one), while the table and the counts are those of the new answer. *)
Theorem empty_assessee_keeps_panel (w : World) (file : File) (t0 t1 : Z)
    (a : value) (txs : list obj) :
  selectedFile (js w) = Some file ->
  truthy a
  && (ToBoolean (prop a "name") || ToBoolean (prop a "pan")
      || ToBoolean (prop a "financialYear")
      || ToBoolean (prop a "financial_year")) = false ->
  let parsed := parsePDF t0 t1 (Json (UploadSuccess a txs)) w in
  assesseePanel (document parsed) = assesseePanel (document w)
  /\ assessee (extractedData (js parsed)) = a
  /\ summaryTransactionCount (summary (document parsed))
     = text_of_Z (Z.of_nat (length txs)).
Proof.
  intros Hfile Hempty parsed.
  unfold parsed, parsePDF, parsePDF_request, parsePDF_response, seq.
  rewrite Hfile.
  project.
  assert (Hpanel : forall x,
            assessee (extractedData (js x)) = a ->
            updateAssesseeInfo x = x).
  { intros x Hx. unfold updateAssesseeInfo. rewrite Hx.
    by rewrite !ToBoolean_logical_or, Hempty. }
  rewrite Hpanel by (by rewrite updateExcelPreview_js).
  rewrite updateExcelPreview_js, updateExcelPreview_document. by project.
Qed.

Lemma empty_assessee_keeps_panel_witness :
  let parsed :=
    parsePDF 900 950 (Json (UploadSuccess (VPrim PNull) [demoTransaction 3]))
      demoParsed in
  assesseeName (assesseePanel (document parsed)) = "A TAXPAYER".
Proof.
  intros parsed.
  pose proof (empty_assessee_keeps_panel demoParsed demoFile 900 950
                (VPrim PNull) [demoTransaction 3]
                ltac:(by vm_compute) eq_refl) as (Hpanel & _).
  fold parsed in Hpanel. rewrite Hpanel. vm_compute. reflexivity.
Defined.

(** ** What a session sends and counts *)

Lemma file_offers_app (a b : list Effect) :
  file_offers (a ++ b) = file_offers a ++ file_offers b.
Proof. unfold file_offers. induction a as [|[]]; cbn; by rewrite ?IHa. Qed.

Lemma download_bodies_app (a b : list Effect) :
  download_bodies (a ++ b) = download_bodies a ++ download_bodies b.
Proof.
  unfold download_bodies. induction a as [|[| |url []|]]; cbn; by rewrite ?IHa.
Qed.

Lemma renderPDFPage_out_quiet p r w :
  file_offers (out (renderPDFPage p r w)) = file_offers (out w)
  /\ download_bodies (out (renderPDFPage p r w)) = download_bodies (out w).
Proof.
  unfold renderPDFPage.
  destruct (pdfDocument (js w)), r; project;
    rewrite ?file_offers_app, ?download_bodies_app; cbn;
    by rewrite ?app_nil_r.
Qed.

(** Only the confirmation in the modal sends a download request or offers
    a file. *)
Lemma step_out_quiet w e :
  is_confirm e = false ->
  file_offers (out (step w e)) = file_offers (out w)
  /\ download_bodies (out (step w e)) = download_bodies (out w).
Proof.
  destruct e as [file|loaded r|t0|t1 r| | | |r| |r|r|i];
    cbn [step is_confirm]; intros He; try discriminate He.
  - unfold handleFile. destruct (negb _); frame.
    by rewrite file_offers_app, download_bodies_app, !app_nil_r.
  - unfold loadPDF. destruct loaded; project.
    + destruct (renderPDFPage_out_quiet 1 r
        (set_currentPage 1
           (set_pdfControls_shown true
              (set_pageCount (numPages p)
                 (set_totalPages (numPages p) (set_pdfDocument (Some p) w))))))
        as [-> ->]. frame.
    + by rewrite !file_offers_app, !download_bodies_app, !app_nil_r.
  - rewrite parsePDF_request_out.
    rewrite file_offers_app, download_bodies_app.
    destruct (selectedFile (js w)); by rewrite !app_nil_r.
  - rewrite parsePDF_response_out.
    rewrite file_offers_app, download_bodies_app.
    destruct r as [m|st|m|[a txs|e]]; by rewrite !app_nil_r.
  - rewrite resetTool_out.
    by rewrite file_offers_app, download_bodies_app, !app_nil_r.
  - unfold showAllTransactions. destruct (_ =? 0); frame.
  - unfold showDownloadModal. destruct (_ =? 0); frame.
    by rewrite file_offers_app, download_bodies_app, !app_nil_r.
  - frame.
  - unfold prevPage. destruct (1 <? _); [|done]. unfold seq.
    destruct (renderPDFPage_out_quiet
                (currentPage (js (set_currentPage (currentPage (js w) - 1) w)))
                r (set_currentPage (currentPage (js w) - 1) w)) as [-> ->].
    frame.
  - unfold nextPage. destruct (_ <? _); [|done]. unfold seq.
    destruct (renderPDFPage_out_quiet
                (currentPage (js (set_currentPage (currentPage (js w) + 1) w)))
                r (set_currentPage (currentPage (js w) + 1) w)) as [-> ->].
    frame.
  - frame.
Qed.

Lemma confirm_out r w :
  file_offers (out (downloadExcelFile r w))
  = file_offers (out w) ++
    match r with
    | Json (DownloadSuccess download_url filename) =>
        if download_succeeds r w then [(download_url, filename)] else []
    | _ => []
    end
  /\ download_bodies (out (downloadExcelFile r w))
     = download_bodies (out w) ++
       if Z.of_nat (length (transactions (extractedData (js w)))) =? 0
       then []
       else [{| Request.assessee_info := assessee (extractedData (js w));
                Request.transactions :=
                  transactions (extractedData (js w)) |}].
Proof.
  rewrite downloadExcelFile_out. cbv zeta.
  rewrite file_offers_app, download_bodies_app. unfold download_succeeds.
  destruct (_ =? 0); [by destruct r as [m|st|m|[u f|e]]|].
  by destruct r as [m|st|m|[u f|e]].
Qed.

Lemma init_out markup saved evaluated today :
  out (init markup saved evaluated today) = [].
Proof.
  unfold init, loadUserData. destruct saved as [savedData|]; project; [|done].
  destruct (negb _); by project.
Qed.

(** X8.  In a session no request for a spreadsheet ever carries an empty
    transaction list. *)
Theorem no_empty_download_request (markup : Dom) (saved : option UserData)
    (evaluated today : string) (events : list Event) :
  Forall (fun body => Request.transactions body <> [])
    (download_bodies (out (run (init markup saved evaluated today) events))).
Proof.
  assert (Hinit : Forall (fun body => Request.transactions body <> [])
            (download_bodies (out (init markup saved evaluated today)))).
  { rewrite init_out. apply Forall_nil_2. }
  revert Hinit. generalize (init markup saved evaluated today).
  unfold run. induction events as [|e events IH]; intros w Hw; [done|].
  cbn [fold_left]. apply IH. destruct (is_confirm e) eqn:He.
  - destruct e; try discriminate He. cbn [step].
    destruct (confirm_out r w) as [_ ->]. apply Forall_app. split; [done|].
    destruct (_ =? 0) eqn:Hn; [apply Forall_nil_2|].
    apply Forall_cons. split; [|apply Forall_nil_2].
    cbn [Request.transactions]. intros Hnil.
    apply length_zero_iff_nil in Hnil. congruence.
  - by destruct (step_out_quiet w e He) as [_ ->].
Qed.

(** ** The usage counters through a session *)

Lemma renderPDFPage_summary p r w :
  summary (document (renderPDFPage p r w)) = summary (document w).
Proof. unfold renderPDFPage. by destruct (pdfDocument (js w)), r. Qed.

Lemma updateExcelPreview_summary w :
  summary (document (updateExcelPreview w)) = summary (document w).
Proof. by rewrite updateExcelPreview_document. Qed.

Lemma updateAssesseeInfo_summary w :
  summary (document (updateAssesseeInfo w)) = summary (document w).
Proof. by rewrite updateAssesseeInfo_document. Qed.

Lemma appendRows_summary rows w :
  summary (document (appendRows rows w)) = summary (document w).
Proof. by rewrite appendRows_document. Qed.

Ltac project_summary :=
  project;
  repeat (progress
            (rewrite ?updateAssesseeInfo_summary, ?updateExcelPreview_summary,
               ?appendRows_summary, ?renderPDFPage_summary;
             project)).

Lemma step_counters_shown w e :
  is_confirm e = false ->
  totalFilesCounter (summary (document (step w e)))
  = totalFilesCounter (summary (document w))
  /\ todayFilesCounter (summary (document (step w e)))
     = todayFilesCounter (summary (document w)).
Proof.
  destruct e as [file|loaded r|t0|t1 r| | | |r| |r|r|i];
    cbn [step is_confirm]; intros He; try discriminate He.
  - unfold handleFile, updateFileCount. by destruct (negb _).
  - unfold loadPDF. destruct loaded; by project_summary.
  - unfold parsePDF_request. by destruct (selectedFile (js w)).
  - unfold parsePDF_response.
    destruct r as [m|st|m|[a txs|e]]; by project_summary.
  - by rewrite resetTool_document.
  - unfold showAllTransactions. destruct (_ =? 0); by project_summary.
  - unfold showDownloadModal. by destruct (_ =? 0).
  - done.
  - unfold prevPage. destruct (1 <? _); by project_summary.
  - unfold nextPage. destruct (_ <? _); by project_summary.
  - done.
Qed.

Lemma downloadExcelFile_counters_shown r w :
  totalFilesCounter (summary (document (downloadExcelFile r w)))
  = (if download_succeeds r w
     then totalFilesProcessed (userData (js w)) + 1
     else totalFilesCounter (summary (document w)))
  /\ todayFilesCounter (summary (document (downloadExcelFile r w)))
     = (if download_succeeds r w
        then todayFilesProcessed (userData (js w)) + 1
        else todayFilesCounter (summary (document w))).
Proof.
  unfold downloadExcelFile, download_succeeds. cbv zeta.
  destruct r as [m|st|m|[u f|e]]; by destruct (_ =? 0).
Qed.

Lemma step_counters_in_sync w e :
  counters_in_sync w -> counters_in_sync (step w e).
Proof.
  unfold counters_in_sync. intros (Htotal & Htoday & Hstored).
  destruct (is_confirm e) eqn:He.
  - destruct e; try discriminate He. cbn [step].
    destruct (downloadExcelFile_counters_shown r w) as [-> ->].
    rewrite downloadExcelFile_localStorage, downloadExcelFile_js.
    destruct (download_succeeds r w); [|done]. split; [done|]. split; [done|].
    by right.
  - destruct (step_counters_shown w e He) as [-> ->].
    by destruct (step_userData w e He) as [-> ->].
Qed.

Lemma init_counters_in_sync markup saved evaluated today :
  counters_in_sync (init markup saved evaluated today).
Proof.
  unfold counters_in_sync. rewrite init_localStorage, init_js.
  split; [|split; [|destruct saved; [by right|by left]]].
  all: unfold init, loadUserData; destruct saved as [savedData|]; project;
    [destruct (negb _); by project|done].
Qed.

(** X9.  Throughout a session the two counters on the page are the two
    counters of [userData], and the storage is empty or holds exactly
    [userData], with its counters and its date. *)
Theorem counters_stay_in_sync (markup : Dom) (saved : option UserData)
    (evaluated today : string) (events : list Event) :
  counters_in_sync (run (init markup saved evaluated today) events).
Proof.
  generalize (init_counters_in_sync markup saved evaluated today).
  generalize (init markup saved evaluated today).
  unfold run. induction events as [|e events IH]; intros w Hw; [done|].
  cbn [fold_left]. by apply IH, step_counters_in_sync.
Qed.

Lemma step_counts w e :
  exists k : Z,
    (k = 0 \/ k = 1)
    /\ Z.of_nat (length (file_offers (out (step w e))))
       = Z.of_nat (length (file_offers (out w))) + k
    /\ totalFilesProcessed (userData (js (step w e)))
       = totalFilesProcessed (userData (js w)) + k
    /\ todayFilesProcessed (userData (js (step w e)))
       = todayFilesProcessed (userData (js w)) + k
    /\ lastResetDate (userData (js (step w e)))
       = lastResetDate (userData (js w)).
Proof.
  destruct (is_confirm e) eqn:He.
  - destruct e; try discriminate He. cbn [step].
    destruct (confirm_out r w) as [-> _]. rewrite downloadExcelFile_js.
    destruct (download_succeeds r w) eqn:Hr.
    + exists 1. destruct r as [m|st|m|[u f|e]]; try discriminate Hr.
      rewrite length_app. cbn. split; [by right|]. repeat split. lia.
    + exists 0. split; [by left|].
      destruct r as [m|st|m|[u f|e]]; rewrite app_nil_r; repeat split; lia.
  - exists 0. split; [by left|].
    destruct (step_out_quiet w e He) as [-> _].
    destruct (step_userData w e He) as [-> _]. repeat split; lia.
Qed.

Lemma run_counts events w :
  exists k : Z,
    0 <= k
    /\ Z.of_nat (length (file_offers (out (run w events))))
       = Z.of_nat (length (file_offers (out w))) + k
    /\ totalFilesProcessed (userData (js (run w events)))
       = totalFilesProcessed (userData (js w)) + k
    /\ todayFilesProcessed (userData (js (run w events)))
       = todayFilesProcessed (userData (js w)) + k
    /\ lastResetDate (userData (js (run w events)))
       = lastResetDate (userData (js w)).
Proof.
  unfold run. revert w.
  induction events as [|e events IH]; intros w; cbn [fold_left].
  - exists 0. repeat split; lia.
  - destruct (IH (step w e)) as (k & Hk & -> & -> & -> & ->).
    destruct (step_counts w e) as (k1 & Hk1 & -> & -> & -> & ->).
    exists (k1 + k). repeat split; lia.
Qed.

(** X10.  In a session each counter has grown by exactly the number of
    files offered for download since the page was loaded, so neither ever
    goes down, and the date of the last reset is the one the page was
    loaded with. *)
Theorem counters_count_the_offers (markup : Dom) (saved : option UserData)
    (evaluated today : string) (events : list Event) :
  let loaded := init markup saved evaluated today in
  let w := run loaded events in
  let offered := Z.of_nat (length (file_offers (out w))) in
  totalFilesProcessed (userData (js w))
  = totalFilesProcessed (userData (js loaded)) + offered
  /\ todayFilesProcessed (userData (js w))
     = todayFilesProcessed (userData (js loaded)) + offered
  /\ lastResetDate (userData (js w)) = lastResetDate (userData (js loaded)).
Proof.
  intros loaded w offered.
  destruct (run_counts events loaded) as (k & Hk & Hoff & Htotal & Htoday & Hd).
  fold w in Hoff, Htotal, Htoday, Hd. fold offered in Hoff.
  assert (Hk0 : offered = k).
  { rewrite Hoff. unfold loaded. rewrite init_out. cbn. lia. }
  rewrite Htotal, Htoday, Hd, Hk0. done.
Qed.

(** X11.  When what the storage held had a count of today between 0 and
    the total (or the storage was empty), then throughout the session the
    count of today is between 0 and the total. *)
Theorem today_within_total (markup : Dom) (saved : option UserData)
    (evaluated today : string) (events : list Event) :
  (forall savedData, saved = Some savedData ->
     0 <= todayFilesProcessed savedData <= totalFilesProcessed savedData) ->
  let w := run (init markup saved evaluated today) events in
  0 <= todayFilesProcessed (userData (js w))
    <= totalFilesProcessed (userData (js w)).
Proof.
  intros Hsaved w.
  destruct (run_counts events (init markup saved evaluated today))
    as (k & Hk & _ & Htotal & Htoday & _).
  unfold w. rewrite Htotal, Htoday, init_js. cbn [userData].
  destruct saved as [savedData|]; [|cbn; lia].
  specialize (Hsaved savedData eq_refl).
  destruct (negb _); cbn; lia.
Qed.

Lemma today_within_total_witness :
  let w :=
    run (init demoMarkup (Some demoSaved) "Mon Nov 02 2026" "Mon Nov 02 2026")
      [FileChosen demoFile;
       ParseClicked 100;
       ParseAnswered 350
         (Json (UploadSuccess (VObj demoAssessee) [demoTransaction 1]));
       ConfirmClicked (Json (DownloadSuccess "/download/a.xlsx" "a.xlsx"))] in
  0 <= todayFilesProcessed (userData (js w))
    <= totalFilesProcessed (userData (js w)).
Proof.
  apply (today_within_total demoMarkup (Some demoSaved)).
  intros savedData [= <-]. cbn. lia.
Defined.

(** X12.  What a counted download saves is what the next load of the page
    reads back: the total is the one after the download, and the count of
    today is the one after the download when the page is loaded on the same
    date, and 0 on another date; either way the date of the last reset is
    then the date of the load. *)
Theorem reload_reads_the_counters (w : World) (r : Fetched DownloadResult)
    (markup : Dom) (evaluated today : string) :
  download_succeeds r w = true ->
  let saving := downloadExcelFile r w in
  let reloaded := init markup (localStorage saving) evaluated today in
  totalFilesProcessed (userData (js reloaded))
  = totalFilesProcessed (userData (js w)) + 1
  /\ todayFilesProcessed (userData (js reloaded))
     = (if (lastResetDate (userData (js w)) =? today)%string
        then todayFilesProcessed (userData (js w)) + 1 else 0)
  /\ lastResetDate (userData (js reloaded)) = today
  /\ localStorage reloaded = Some (userData (js reloaded)).
Proof.
  intros Hr saving reloaded. unfold reloaded, saving.
  rewrite init_localStorage, init_js.
  rewrite downloadExcelFile_localStorage, downloadExcelFile_js, Hr.
  cbn [userData totalFilesProcessed todayFilesProcessed lastResetDate].
  destruct (String.eqb_spec (lastResetDate (userData (js w))) today);
    cbn [negb]; by repeat split.
Qed.

Lemma reload_reads_the_counters_witness :
  let saving :=
    downloadExcelFile (Json (DownloadSuccess "/download/a.xlsx" "a.xlsx"))
      demoParsed in
  totalFilesProcessed
    (userData (js (init demoMarkup (localStorage saving) "" "Tue Nov 03 2026")))
  = 1.
Proof.
  intros saving.
  pose proof (reload_reads_the_counters demoParsed
                (Json (DownloadSuccess "/download/a.xlsx" "a.xlsx"))
                demoMarkup "" "Tue Nov 03 2026" ltac:(by vm_compute))
    as (Htotal & _).
  fold saving in Htotal. rewrite Htotal. by vm_compute.
Defined.

(** ** Choosing a file *)

Lemma step_data w e :
  (transactions (extractedData (js (step w e)))
   = transactions (extractedData (js w))
   /\ selectedFile (js (step w e)) = selectedFile (js w))
  \/ transactions (extractedData (js (step w e))) = []
  \/ no_result e = false
     /\ selectedFile (js (step w e)) = selectedFile (js w).
Proof.
  destruct e as [file|loaded r|t0|t1 r| | | |r| |r|r|i]; cbn [step].
  - destruct (pdf_named file) eqn:Hf.
    + right; left. by rewrite handleFile_accepted_js.
    + left. by rewrite handleFile_rejected.
  - left. destruct loaded; [by rewrite loadPDF_js|by rewrite loadPDF_failed_js].
  - left. rewrite parsePDF_request_js.
    by destruct (selectedFile (js w)) eqn:Hs.
  - rewrite parsePDF_response_js.
    destruct r as [m|st|m|[a txs|e]]; try (by left).
    right; right. by split.
  - right; left. by rewrite resetTool_js.
  - left. by rewrite showAllTransactions_js.
  - left. by rewrite showDownloadModal_js.
  - left. rewrite downloadExcelFile_js. by destruct (download_succeeds r w).
  - by left.
  - left. rewrite prevPage_js. by destruct (1 <? _).
  - left. rewrite nextPage_js. by destruct (_ <? _).
  - by left.
Qed.

(** Without a result of the server the transaction list stays empty. *)
Lemma run_no_result events w :
  forallb no_result events = true ->
  transactions (extractedData (js w)) = [] ->
  transactions (extractedData (js (run w events))) = [].
Proof.
  unfold run. revert w.
  induction events as [|e events IH]; intros w; cbn [forallb fold_left];
    [done|].
  intros [He Hes]%andb_prop Hw. apply IH; [done|].
  destruct (step_data w e) as [[-> _]|[Hnil|[Hres _]]]; [done|done|].
  congruence.
Qed.

Lemma showDownloadModal_shown w :
  transactions (extractedData (js w)) <> [] ->
  reportModal_shown (modal (document (showDownloadModal w))) = true
  /\ modalTransactionCount (modal (document (showDownloadModal w)))
     = text_of_Z (Z.of_nat (length (transactions (extractedData (js w))))).
Proof.
  intros Htx. unfold showDownloadModal. cbv zeta.
  destruct (_ =? 0) eqn:Hn; [by apply length_zero_iff_nil in Hn|].
  by project.
Qed.

(** X13.  Accepting a file empties the extracted data at once but leaves
    the page of the parse before as it is: the table, the panel of the
    assessee, the modal, the counts of transactions and the state of the
    Download button are untouched.  From then on, whatever happens, as long
    as no success answer of /upload arrives Download and Show All find
    nothing: Download only notifies the error, Show All does nothing.  But
    the answer of a parse that was begun on the file before may still
    arrive: its transactions are then held under the new file, and Download
    opens the modal on them. *)
Theorem new_file_keeps_old_preview (w : World) (file : File)
    (later : list Event) (t1 : Z) (a : value) (txs : list obj) :
  pdf_named file = true ->
  let chosen := handleFile file w in
  extractedData (js chosen) = blankExtractedData
  /\ (excelPane (document chosen) = excelPane (document w)
      /\ assesseePanel (document chosen) = assesseePanel (document w)
      /\ modal (document chosen) = modal (document w)
      /\ summaryTransactionCount (summary (document chosen))
         = summaryTransactionCount (summary (document w))
      /\ counterValue (summary (document chosen))
         = counterValue (summary (document w))
      /\ downloadBtn_disabled (buttons (document chosen))
         = downloadBtn_disabled (buttons (document w)))
  /\ (fileCountEl (summary (document chosen)) = "1"
      /\ parseBtn_disabled (buttons (document chosen)) = false
      /\ pdfInfo (pdfPane (document chosen)) = PdfInfoFile file
      /\ activePreviewTab (document chosen) = 0%nat)
  /\ (forallb no_result later = true ->
      let current := run chosen later in
      transactions (extractedData (js current)) = []
      /\ showDownloadModal current
         = showNotification
             "No data to download. Please parse a 26AS PDF first." "error"
             current
      /\ showAllTransactions current = current)
  /\ (txs <> [] ->
      let late := parsePDF_response t1 (Json (UploadSuccess a txs)) chosen in
      selectedFile (js late) = Some file
      /\ transactions (extractedData (js late)) = txs
      /\ reportModal_shown (modal (document (showDownloadModal late))) = true
      /\ modalTransactionCount (modal (document (showDownloadModal late)))
         = text_of_Z (Z.of_nat (length txs))).
Proof.
  intros Hname chosen.
  assert (Hjs : js chosen
                = {| selectedFile := Some file;
                     extractedData := blankExtractedData;
                     pdfDocument := pdfDocument (js w);
                     currentPage := currentPage (js w);
                     totalPages := totalPages (js w);
                     userData := userData (js w) |}).
  { unfold chosen. by rewrite handleFile_accepted_js. }
  split; [by rewrite Hjs|].
  split; [|split; [|split]].
  - unfold chosen, handleFile, pdf_named in *. rewrite Hname.
    unfold updateFileCount. by project.
  - unfold chosen, handleFile, pdf_named in *. rewrite Hname.
    unfold updateFileCount. by project.
  - intros Hlater current.
    assert (Htx : transactions (extractedData (js current)) = []).
    { unfold current. apply run_no_result; [done|]. by rewrite Hjs. }
    split; [done|]. split.
    + unfold showDownloadModal. by rewrite Htx.
    + unfold showAllTransactions. by rewrite Htx.
  - intros Htxs late.
    assert (Hlate : transactions (extractedData (js late)) = txs).
    { unfold late. by rewrite parsePDF_response_success_js. }
    split; [unfold late; by rewrite parsePDF_response_success_js, Hjs|].
    split; [done|].
    destruct (showDownloadModal_shown late) as [Hshown Hcount];
      [by rewrite Hlate|].
    by rewrite Hshown, Hcount, Hlate.
Qed.

Lemma new_file_keeps_old_preview_witness :
  let chosen := handleFile demoFile demoParsed in
  let late :=
    parsePDF_response 350
      (Json (UploadSuccess (VObj demoAssessee) [demoTransaction 1])) chosen in
  excelPane (document chosen) = excelPane (document demoParsed)
  /\ transactions
       (extractedData
          (js (run chosen [PdfAnswered None Rendered; ParseClicked 400;
                           ParseAnswered 900 (HttpError 502)])))
     = []
  /\ reportModal_shown (modal (document (showDownloadModal late))) = true.
Proof.
  intros chosen late.
  pose proof (new_file_keeps_old_preview demoParsed demoFile
                [PdfAnswered None Rendered; ParseClicked 400;
                 ParseAnswered 900 (HttpError 502)]
                350 (VObj demoAssessee) [demoTransaction 1] eq_refl)
    as (_ & (Hpane & _) & _ & Hlater & Hlate).
  split; [exact Hpane|].
  split; [exact (proj1 (Hlater eq_refl))|].
  destruct Hlate as (_ & _ & Hshown & _); [discriminate|exact Hshown].
Defined.

Lemma showDownloadModal_no_pageCount w :
  transactions (extractedData (js w)) <> [] ->
  pageCountOf w = 0 ->
  modalPageCount (modal (document (showDownloadModal w))) = "1".
Proof.
  intros Htx Hpc. unfold showDownloadModal.
  destruct (_ =? 0) eqn:Hn; [by apply length_zero_iff_nil in Hn|].
  project. unfold pageCountOf in Hpc. rewrite Hpc. by vm_compute.
Qed.

(** X14.  When PDF.js could not open the chosen file, the page count stays
    0 through every later event that keeps the file, and the download
    modal, when it opens on a result of the server, announces 1 page,
    whatever the document has. *)
Theorem unopened_document_counts_one_page (w : World) (file : File)
    (r : Rendering) (before later : list Event) :
  pdf_named file = true ->
  forallb keeps_document before = true ->
  forallb keeps_document later = true ->
  let current :=
    run (loadPDF None r (run (handleFile file w) before)) later in
  pageCountOf current = 0
  /\ (transactions (extractedData (js current)) <> [] ->
      modalPageCount (modal (document (showDownloadModal current))) = "1").
Proof.
  intros Hname Hbefore Hlater current.
  assert (Hpc : pageCountOf current = 0).
  { unfold current. rewrite run_keeps_pageCount by done.
    unfold pageCountOf. rewrite loadPDF_failed_js.
    fold (pageCountOf (run (handleFile file w) before)).
    rewrite run_keeps_pageCount by done.
    unfold pageCountOf. by rewrite handleFile_accepted_js. }
  split; [done|]. intros Htx. by apply showDownloadModal_no_pageCount.
Qed.

Lemma unopened_document_counts_one_page_witness :
  let current :=
    run (loadPDF None Rendered (run (handleFile demoFile demoStart) []))
      [ParseClicked 100;
       ParseAnswered 350
         (Json (UploadSuccess (VObj demoAssessee) [demoTransaction 1]))] in
  modalPageCount (modal (document (showDownloadModal current))) = "1".
Proof.
  intros current.
  pose proof (unopened_document_counts_one_page demoStart demoFile Rendered []
                [ParseClicked 100;
                 ParseAnswered 350
                   (Json (UploadSuccess (VObj demoAssessee)
                            [demoTransaction 1]))]
                eq_refl eq_refl eq_refl) as (_ & Hmodal).
  apply Hmodal. intros H%(f_equal length). vm_compute in H. discriminate H.
Defined.

(** X15.  [loadPDF] does not look at what is selected when PDF.js answers:
    an answer that comes after a Reset brings back the document, its page
    count and the page controls, with no file selected; and an answer for
    a file chosen earlier overwrites the page count of the file chosen
    after it. *)
Theorem late_answer_is_taken (w : World) (pdf : PdfDocument) (r : Rendering)
    (file : File) :
  pdf_named file = true ->
  let after_reset := loadPDF (Some pdf) r (resetTool w) in
  let after_choice := loadPDF (Some pdf) r (handleFile file w) in
  (selectedFile (js after_reset) = None
   /\ pdfDocument (js after_reset) = Some pdf
   /\ pageCountOf after_reset = numPages pdf
   /\ totalPages (js after_reset) = numPages pdf
   /\ pdfControls_shown (pdfPane (document after_reset)) = true)
  /\ (selectedFile (js after_choice) = Some file
      /\ pageCountOf after_choice = numPages pdf).
Proof.
  intros Hname after_reset after_choice. unfold pageCountOf.
  unfold after_reset, after_choice.
  rewrite !loadPDF_js, resetTool_js, handleFile_accepted_js by done.
  repeat split.
  unfold loadPDF, renderPDFPage. project.
  by destruct r.
Qed.

Lemma late_answer_is_taken_witness :
  pageCountOf (loadPDF (Some demoPdf) Rendered (resetTool demoParsed)) = 3.
Proof.
  pose proof (late_answer_is_taken demoParsed demoPdf Rendered demoFile
                eq_refl) as ((_ & _ & Hpc & _) & _).
  exact Hpc.
Defined.

(** ** The size of the table and what the modal announces *)

(** X16.  After a successful parse the table never holds more than 51
    rows: one data row for each of the first 50 transactions, followed by
    the row that announces the total exactly when there are more than 50.
    After Show All it holds one row for every transaction and no such
    row. *)
Theorem preview_is_bounded (w : World) (file : File) (t0 t1 : Z) (a : value)
    (txs : list obj) :
  selectedFile (js w) = Some file ->
  let parsed := parsePDF t0 t1 (Json (UploadSuccess a txs)) w in
  let body := excelBody (excelPane (document parsed)) in
  let n := length txs in
  (length body <= 51)%nat
  /\ length (dataRows body) = Nat.min 50 n
  /\ ((50 < n)%nat -> last body = Some (InfoRow (Z.of_nat n)))
  /\ ((n <= 50)%nat -> forall total, InfoRow total ∉ body)
  /\ (txs <> [] ->
      excelBody (excelPane (document (showAllTransactions parsed)))
      = map (fun t => DataRow (rowCells t)) txs).
Proof.
  intros Hfile parsed body n.
  assert (Htx : transactions (extractedData (js parsed)) = txs).
  { unfold parsed. by rewrite parsePDF_js, Hfile. }
  assert (Hrows : dataRows body = map rowCells (take 50 txs)).
  { unfold body, parsed. by rewrite (parsePDF_success_dataRows _ _ _ _ file). }
  assert (Hbody : body
            = if Z.of_nat n =? 0 then [PlaceholderRow]
              else map (fun t => DataRow (rowCells t)) (take 50 txs)
                     ++ (if 50 <? Z.of_nat n then [InfoRow (Z.of_nat n)]
                         else [])).
  { unfold body, parsed.
    rewrite (parsePDF_success_excelPane _ _ _ _ file) by done. cbv zeta.
    fold n. by destruct (Z.of_nat n =? 0). }
  split; [|split; [|split; [|split]]].
  - rewrite Hbody. destruct (Z.of_nat n =? 0); [cbn; lia|].
    rewrite length_app, length_map, length_take.
    destruct (50 <? Z.of_nat n); cbn [length]; lia.
  - rewrite Hrows, length_map, length_take. done.
  - intros Hn. rewrite Hbody.
    destruct (Z.eqb_spec (Z.of_nat n) 0); [lia|].
    destruct (Z.ltb_spec 50 (Z.of_nat n)); [|lia]. by rewrite last_snoc.
  - intros Hn total Hin. rewrite Hbody in Hin.
    destruct (Z.of_nat n =? 0).
    + apply list_elem_of_singleton in Hin. discriminate Hin.
    + destruct (Z.ltb_spec 50 (Z.of_nat n)); [lia|].
      rewrite app_nil_r in Hin.
      apply list_elem_of_fmap in Hin as (t & Ht & _). discriminate Ht.
  - intros Hne. rewrite showAllTransactions_excelBody by (by rewrite Htx).
    by rewrite Htx.
Qed.

Lemma preview_is_bounded_witness :
  let parsed :=
    parsePDF 100 350
      (Json (UploadSuccess (VObj demoAssessee) (replicate 60 (demoTransaction 1))))
      (handleFile demoFile demoStart) in
  (length (excelBody (excelPane (document parsed))) <= 51)%nat
  /\ last (excelBody (excelPane (document parsed))) = Some (InfoRow 60).
Proof.
  intros parsed.
  pose proof (preview_is_bounded (handleFile demoFile demoStart) demoFile
                100 350 (VObj demoAssessee) (replicate 60 (demoTransaction 1))
                eq_refl) as (Hlen & _ & Hlast & _).
  split; [exact Hlen|]. apply Hlast. rewrite length_replicate. lia.
Defined.




(** ** The names [handleFile] accepts *)

Lemma toLowerCase_length (s : string) :
  String.length (toLowerCase s) = String.length s.
Proof. induction s as [|c s IH]; cbn; by rewrite ?IH. Qed.

Lemma toLowerCase_substring (s : string) (m k : nat) :
  substring m k (toLowerCase s) = toLowerCase (substring m k s).
Proof.
  revert m k. induction s as [|c s IH]; intros [|m] [|k]; cbn;
    by rewrite ?IH.
Qed.

Lemma append_cons (c : ascii) (a b : string) :
  String c a +:+ b = String c (a +:+ b).
Proof. reflexivity. Qed.

Lemma substring_all (s : string) : substring 0 (String.length s) s = s.
Proof. induction s as [|c s IH]; cbn; by rewrite ?IH. Qed.

Lemma substring_split (s : string) (m : nat) :
  (m <= String.length s)%nat ->
  s = substring 0 m s +:+ substring m (String.length s - m) s.
Proof.
  revert m. induction s as [|c s IH]; intros [|m] Hm.
  - done.
  - cbn in Hm. lia.
  - rewrite Nat.sub_0_r, substring_all. by destruct c.
  - cbn in Hm. cbn [substring String.length Nat.sub].
    rewrite append_cons. f_equal. apply IH. lia.
Qed.

Lemma substring_length (s : string) (m k : nat) :
  (m + k <= String.length s)%nat -> String.length (substring m k s) = k.
Proof.
  revert m k. induction s as [|c s IH]; intros m k Hm.
  - cbn in Hm. by destruct m, k; try lia.
  - destruct m as [|m].
    + destruct k as [|k]; [done|]. cbn in *. f_equal. apply IH. lia.
    + cbn in *. apply IH. lia.
Qed.

Lemma substring_append_r (stem e : string) (k : nat) :
  substring (String.length stem) k (stem +:+ e) = substring 0 k e.
Proof.
  induction stem as [|c stem IH]; [done|].
  rewrite append_cons. cbn [String.length substring]. apply IH.
Qed.

Lemma append_length (a b : string) :
  String.length (a +:+ b) = (String.length a + String.length b)%nat.
Proof.
  induction a as [|c a IH]; [done|].
  rewrite append_cons. cbn [String.length]. by rewrite IH.
Qed.

Lemma lower_inv (c : ascii) :
  (lower c = "."%char -> c = "."%char)
  /\ (lower c = "p"%char -> c = "p"%char \/ c = "P"%char)
  /\ (lower c = "d"%char -> c = "d"%char \/ c = "D"%char)
  /\ (lower c = "f"%char -> c = "f"%char \/ c = "F"%char).
Proof.
  destruct c as [b0 b1 b2 b3 b4 b5 b6 b7].
  destruct b0, b1, b2, b3, b4, b5, b6, b7;
    (repeat split; intros H; vm_compute in H; try discriminate H;
     try reflexivity; (by left) || (by right)).
Qed.

(** X18.  The names [handleFile] accepts are exactly those that end in a
    dot followed by p, d, f, each in either case: nothing is asked of what
    comes before, which may be empty, and nothing may come after. *)
Theorem accepted_names (file : File) :
  pdf_named file = true
  <-> exists (stem : string) (c1 c2 c3 : ascii),
        file_name file
        = stem +:+ String "." (String c1 (String c2 (String c3 "")))
        /\ (c1 = "p"%char \/ c1 = "P"%char)
        /\ (c2 = "d"%char \/ c2 = "D"%char)
        /\ (c3 = "f"%char \/ c3 = "F"%char).
Proof.
  unfold pdf_named, endsWith. rewrite toLowerCase_length.
  set (s := file_name file). cbn [String.length]. split.
  - intros [Hlen Hsuffix]%andb_prop.
    apply Nat.leb_le in Hlen. apply String.eqb_eq in Hsuffix.
    rewrite toLowerCase_substring in Hsuffix.
    pose proof (substring_length s (String.length s - 4) 4 ltac:(lia)) as He.
    pose proof (substring_split s (String.length s - 4) ltac:(lia)) as Hs.
    replace (String.length s - (String.length s - 4))%nat with 4%nat in Hs
      by lia.
    destruct (substring (String.length s - 4) 4 s)
      as [|c0 [|c1 [|c2 [|c3 [|c4 e]]]]]; try discriminate He.
    cbn in Hsuffix. injection Hsuffix as H0 H1 H2 H3.
    apply lower_inv in H0 as ->.
    exists (substring 0 (String.length s - 4) s), c1, c2, c3.
    split; [done|]. split; [by apply lower_inv|].
    split; by apply lower_inv.
  - intros (stem & c1 & c2 & c3 & Hs & H1 & H2 & H3). rewrite Hs.
    rewrite append_length. cbn [String.length].
    apply andb_true_intro. split; [apply Nat.leb_le; lia|].
    apply String.eqb_eq. rewrite toLowerCase_substring.
    replace (String.length stem + 4 - 4)%nat with (String.length stem) by lia.
    rewrite substring_append_r.
    destruct H1 as [-> | ->], H2 as [-> | ->], H3 as [-> | ->]; reflexivity.
Qed.

Lemma accepted_names_witness :
  pdf_named {| file_name := "26AS.Pdf"; file_size := 1 |} = true.
Proof.
  apply (proj2 (accepted_names {| file_name := "26AS.Pdf"; file_size := 1 |})).
  exists "26AS", "P"%char, "d"%char, "f"%char. cbn. tauto.
Defined.

(** ** The tab bars *)

Lemma add_remove_active (tab : Tabs.Tab) :
  Tabs.add_active (Tabs.remove_active (Tabs.add_active (Tabs.remove_active tab)))
  = Tabs.add_active (Tabs.remove_active tab).
Proof. done. Qed.

Lemma click_tabs_lookup suffix i bar k :
  (i < length (Tabs.tabs bar))%nat ->
  Tabs.tabs (Tabs.click suffix i bar) !! k
  = (if decide (k = i) then Tabs.add_active else Tabs.remove_active)
      <$> Tabs.tabs bar !! k.
Proof.
  intros Hi. unfold Tabs.click.
  destruct (lookup_lt_is_Some_2 _ _ Hi) as [tab Htab]. rewrite Htab.
  cbn [Tabs.tabs]. destruct (decide (k = i)) as [->|Hk].
  - rewrite list_lookup_alter, list_lookup_fmap, Htab. by case_decide.
  - rewrite list_lookup_alter_ne by done. rewrite list_lookup_fmap. done.
Qed.

(** X19.  After a click on a tab of a bar, that tab is the only active
    one and the active panes are exactly those whose id is the [data-tab]
    of the tab followed by the suffix of the bar; the attributes and ids
    are as before.  A click wipes out the click before it: clicking one tab
    and then another leaves the bar as the second click alone would. *)
Theorem tab_click_selects_one (suffix : string) (i j : nat) (bar : Tabs.Bar)
    (clicked : Tabs.Tab) :
  Tabs.tabs bar !! i = Some clicked ->
  let after := Tabs.click suffix i bar in
  (forall k tab, Tabs.tabs after !! k = Some tab ->
     (Tabs.tab_active tab = true <-> k = i))
  /\ (forall pane, pane ∈ Tabs.panes after ->
        (Tabs.pane_active pane = true
         <-> Tabs.pane_id pane = Tabs.tabId clicked +:+ suffix))
  /\ map Tabs.data_tab (Tabs.tabs after) = map Tabs.data_tab (Tabs.tabs bar)
  /\ map Tabs.pane_id (Tabs.panes after) = map Tabs.pane_id (Tabs.panes bar)
  /\ Tabs.click suffix i (Tabs.click suffix j bar) = after.
Proof.
  intros Hclicked after.
  assert (Hi : (i < length (Tabs.tabs bar))%nat)
    by (by apply lookup_lt_Some in Hclicked).
  split; [|split; [|split; [|split]]].
  - intros k tab. unfold after. rewrite click_tabs_lookup by done.
    destruct (Tabs.tabs bar !! k) as [t|]; [|done].
    destruct (decide (k = i)); intros [= <-]; cbn; split; done.
  - intros pane. unfold after, Tabs.click. rewrite Hclicked. cbn [Tabs.panes].
    intros (p & -> & _)%list_elem_of_fmap. cbn. apply String.eqb_eq.
  - apply list_eq. intros k. rewrite !list_lookup_fmap. unfold after.
    rewrite click_tabs_lookup by done.
    destruct (Tabs.tabs bar !! k); [|done]. by destruct (decide (k = i)).
  - unfold after, Tabs.click. rewrite Hclicked. cbn [Tabs.panes].
    rewrite map_map. done.
  - destruct (Tabs.tabs bar !! j) as [other|] eqn:Hj.
    2: { unfold Tabs.click at 2. by rewrite Hj. }
    assert (Hj' : (j < length (Tabs.tabs bar))%nat)
      by (by apply lookup_lt_Some in Hj).
    assert (Hlen : length (Tabs.tabs (Tabs.click suffix j bar))
                   = length (Tabs.tabs bar)).
    { unfold Tabs.click. rewrite Hj. cbn [Tabs.tabs].
      by rewrite length_alter, length_map. }
    pose proof (click_tabs_lookup suffix j bar i Hj') as Hlook.
    rewrite Hclicked in Hlook. cbn in Hlook.
    unfold after. unfold Tabs.click at 1 3. rewrite Hlook, Hclicked.
    f_equal.
    + apply list_eq. intros k.
      destruct (decide (k = i)) as [->|Hk].
      * rewrite !list_lookup_alter, !list_lookup_fmap, Hlook, Hclicked.
        repeat case_decide; try done; cbn; by destruct (decide (i = j)).
      * rewrite !list_lookup_alter_ne by done. rewrite !list_lookup_fmap.
        rewrite click_tabs_lookup by done.
        destruct (Tabs.tabs bar !! k); [|done]. by destruct (decide (k = j)).
    + unfold Tabs.click. rewrite Hj. cbn [Tabs.panes]. rewrite map_map.
      apply map_ext. intros pane. cbn.
      by destruct (decide (i = j)).
Qed.

Lemma tab_click_selects_one_witness :
  map Tabs.tab_active (Tabs.tabs (Tabs.click "-preview" 1 demoBar))
  = [false; true]
  /\ Tabs.click "-preview" 1 (Tabs.click "-preview" 0 demoBar)
     = Tabs.click "-preview" 1 demoBar.
Proof.
  pose proof (tab_click_selects_one "-preview" 1 0 demoBar
                {| Tabs.data_tab := Some "excel"; Tabs.tab_active := false |}
                eq_refl) as (_ & _ & _ & _ & Hlast).
  split; [reflexivity|exact Hlast].
Defined.

(** ** The scroll listener *)

Section ScrollListener.

Import QArith Lqa.

Lemma gt_spec (a b : Q) : Scroll.gt a b = true <-> (b < a)%Q.
Proof.
  unfold Scroll.gt. rewrite negb_true_iff, <- not_true_iff_false, Qle_bool_iff.
  split; [apply Qnot_le_lt|apply Qlt_not_le].
Qed.

Lemma onScroll_visible (s : Scroll.State) (e : Q * Q) :
  Scroll.statsContainer_visible (Scroll.onScroll s e) = true ->
  (100 < Scroll.lastScrollTop (Scroll.onScroll s e))%Q.
Proof.
  unfold Scroll.onScroll. cbn.
  destruct (Scroll.gt (Scroll.position (fst e) (snd e)) 100) eqn:Hgt.
  - intros _. by apply gt_spec.
  - cbn. destruct (Qle_bool _ 100) eqn:Hle; [done|].
    unfold Scroll.gt in Hgt. rewrite Hle in Hgt. discriminate Hgt.
Qed.

Lemma onScroll_upwards (s : Scroll.State) (e : Q * Q) :
  Scroll.statsContainer_visible s = false ->
  (Scroll.position (fst e) (snd e) <= Scroll.lastScrollTop s)%Q ->
  Scroll.statsContainer_visible (Scroll.onScroll s e) = false.
Proof.
  intros Hs Hle. unfold Scroll.onScroll. cbn.
  assert (Hgt : Scroll.gt (Scroll.position (fst e) (snd e))
                  (Scroll.lastScrollTop s) = false).
  { apply not_true_iff_false. rewrite gt_spec. by apply Qle_not_lt. }
  rewrite Hgt, andb_false_r. by destruct (Qle_bool _ 100).
Qed.

(** X20.  After a scroll event the statistics container is visible only
    when the page is more than 100 down, whatever it was before; a scroll
    further down that ends beyond 100 shows it; and while the page is only
    scrolled up (or stays), a hidden container stays hidden. *)
Theorem stats_container_follows_scrolling (s : Scroll.State)
    (events : list (Q * Q)) (e : Q * Q) :
  let top := Scroll.position (fst e) (snd e) in
  let final := Scroll.scrolls s (events ++ [e]) in
  Scroll.lastScrollTop final = top
  /\ (Scroll.statsContainer_visible final = true -> (100 < top)%Q)
  /\ ((100 < top)%Q ->
      (Scroll.lastScrollTop (Scroll.scrolls s events) < top)%Q ->
      Scroll.statsContainer_visible final = true)
  /\ (Scroll.statsContainer_visible s = false ->
      Scroll.never_down (Scroll.lastScrollTop s)
        (map (fun at_ => Scroll.position (fst at_) (snd at_)) (events ++ [e])) ->
      Scroll.statsContainer_visible final = false).
Proof.
  intros top final.
  assert (Hfinal : final = Scroll.onScroll (Scroll.scrolls s events) e).
  { unfold final, Scroll.scrolls. by rewrite fold_left_app. }
  split; [by rewrite Hfinal|].
  split; [rewrite Hfinal; apply onScroll_visible|].
  split.
  - intros H100 Hdown. rewrite Hfinal. unfold Scroll.onScroll. cbn.
    fold top. apply gt_spec in H100, Hdown. by rewrite H100, Hdown.
  - clear Hfinal. unfold final. generalize (events ++ [e]). clear.
    intros tops. revert s.
    induction tops as [|t tops IH]; intros s Hs Hup; [done|].
    cbn in Hup. destruct Hup as [Hle Hup]. unfold Scroll.scrolls.
    cbn [fold_left]. apply IH.
    + by apply onScroll_upwards.
    + done.
Qed.

Lemma stats_container_follows_scrolling_witness :
  Scroll.statsContainer_visible
    (Scroll.scrolls (Scroll.start false)
       [(150, 150); (120, 120); (0, 40)]%Q)
  = false.
Proof.
  pose proof (stats_container_follows_scrolling (Scroll.start false)
                [(150, 150); (120, 120)]%Q (0, 40)%Q) as (_ & Hvis & _).
  destruct (Scroll.statsContainer_visible _) eqn:Hv; [|done].
  specialize (Hvis eq_refl). vm_compute in Hvis. discriminate Hvis.
Defined.

End ScrollListener.

(** ** What stays from the file before *)

(** X21.  Choosing a file does not close the document that is open, and a
    failed load does not either: after it the viewer shows the error, but
    the document, its number of pages, the page number and the page
    controls are those of the file before, and Next still draws the next
    page of that document over the error. *)
Theorem failed_load_keeps_old_document (w : World) (file : File)
    (r : Rendering) (old : PdfDocument) :
  pdf_named file = true ->
  pdfDocument (js w) = Some old ->
  currentPage (js w) < totalPages (js w) ->
  let failed := loadPDF None r (handleFile file w) in
  selectedFile (js failed) = Some file
  /\ pdfDocument (js failed) = Some old
  /\ totalPages (js failed) = totalPages (js w)
  /\ currentPage (js failed) = currentPage (js w)
  /\ pdfViewer (pdfPane (document failed)) = ViewerLoadError
  /\ pdfControls_shown (pdfPane (document failed))
     = pdfControls_shown (pdfPane (document w))
  /\ pdfViewer (pdfPane (document (nextPage Rendered failed)))
     = ViewerCanvas (currentPage (js w) + 1).
Proof.
  intros Hname Hold Hlt failed.
  assert (Hjs : js failed
                = {| selectedFile := Some file;
                     extractedData := blankExtractedData;
                     pdfDocument := Some old;
                     currentPage := currentPage (js w);
                     totalPages := totalPages (js w);
                     userData := userData (js w) |}).
  { unfold failed. by rewrite loadPDF_failed_js, handleFile_accepted_js, Hold. }
  rewrite Hjs. repeat split.
  - unfold failed, loadPDF, handleFile, pdf_named in *. rewrite Hname.
    unfold updateFileCount. by project.
  - unfold nextPage, renderPDFPage. rewrite Hjs.
    cbn [currentPage totalPages].
    destruct (Z.ltb_spec (currentPage (js w)) (totalPages (js w))); [|lia].
    project. rewrite Hjs. by project.
Qed.

Lemma failed_load_keeps_old_document_witness :
  let w := loadPDF (Some demoPdf) Rendered (handleFile demoFile demoStart) in
  pdfViewer
    (pdfPane (document
       (nextPage Rendered (loadPDF None Rendered (handleFile demoFile w)))))
  = ViewerCanvas 2.
Proof.
  intros w.
  pose proof (failed_load_keeps_old_document w demoFile Rendered demoPdf
                eq_refl ltac:(by vm_compute) ltac:(by vm_compute))
    as (_ & _ & _ & _ & _ & _ & Hnext).
  rewrite Hnext. by vm_compute.
Defined.

Lemma parsePDF_response_buttons t1 r w :
  buttons (document (parsePDF_response t1 r w))
  = {| parseBtn_disabled := false;
       downloadBtn_disabled :=
         match upload_failure r with
         | Some _ => downloadBtn_disabled (buttons (document w))
         | None => false
         end;
       confirmDownload_disabled :=
         confirmDownload_disabled (buttons (document w));
       prevPage_disabled := prevPage_disabled (buttons (document w));
       nextPage_disabled := nextPage_disabled (buttons (document w)) |}.
Proof.
  unfold parsePDF_response.
  destruct r as [m|st|m|[a' txs|e]]; project; try done.
  rewrite updateAssesseeInfo_document. project.
  rewrite updateExcelPreview_document. by project.
Qed.

Lemma answers_find_a_file_cons w e events :
  answers_find_a_file w (e :: events) = true ->
  answers_find_a_file (step w e) events = true
  /\ (no_result e = false -> is_Some (selectedFile (js w))).
Proof.
  cbn [answers_find_a_file].
  destruct e as [file|loaded r|t0|t1 r| | | |r| |r|r|i];
    try (intros H; split; [exact H|discriminate]).
  destruct (selectedFile (js w)); [|done].
  intros H. split; [exact H|by eexists].
Qed.

(** X22.  In a session there are transactions only while a file is
    selected, and that file has a PDF name, provided no answer of /upload
    arrives while no file is selected.  The proviso is needed: [parsePDF]
    does not look at what is selected when the answer comes, so that an
    answer arriving after a Reset stores its transactions with no file
    selected, enables Parse and Download, and the confirmed download then
    sends these transactions. *)
Theorem data_only_with_a_file (markup : Dom) (saved : option UserData)
    (evaluated today : string) (events : list Event)
    (w : World) (t1 : Z) (a : value) (txs : list obj)
    (r : Fetched DownloadResult) :
  (let loaded := init markup saved evaluated today in
   answers_find_a_file loaded events = true ->
   transactions (extractedData (js (run loaded events))) <> [] ->
   exists file,
     selectedFile (js (run loaded events)) = Some file
     /\ pdf_named file = true)
  /\ (let late :=
        parsePDF_response t1 (Json (UploadSuccess a txs)) (resetTool w) in
      selectedFile (js late) = None
      /\ transactions (extractedData (js late)) = txs
      /\ parseBtn_disabled (buttons (document late)) = false
      /\ downloadBtn_disabled (buttons (document late)) = false
      /\ (txs <> [] ->
          download_bodies (out (downloadExcelFile r late))
          = download_bodies (out late)
              ++ [{| Request.assessee_info := a;
                     Request.transactions := txs |}])).
Proof.
  split.
  - intros loaded Hanswers Htx.
    assert (Hsel : is_Some (selectedFile (js (run loaded events)))).
    { revert Hanswers Htx.
      assert (Hinit : transactions (extractedData (js loaded)) <> [] ->
                      is_Some (selectedFile (js loaded))).
      { unfold loaded. by rewrite init_js. }
      revert Hinit. generalize loaded.
      unfold run. induction events as [|e events IH]; intros w0 Hw0; [done|].
      intros [Hrest He]%answers_find_a_file_cons. cbn [fold_left].
      apply IH; [|done]. intros Htx.
      destruct (step_data w0 e) as [[Ht Hs]|[Hnil|[Hres Hs]]].
      - rewrite Hs. apply Hw0. by rewrite <- Ht.
      - done.
      - rewrite Hs. by apply He. }
    destruct Hsel as [file Hfile]. exists file. split; [done|].
    destruct (run_only_pdfs events _
                (init_only_pdfs markup saved evaluated today)) as [Hpdf _].
    by apply Hpdf.
  - intros late.
    assert (Hjs : js late
                  = {| selectedFile := None;
                       extractedData :=
                         {| assessee := a; transactions := txs;
                            processingStats :=
                              {| startTime := 0; endTime := t1;
                                 pageCount := 0 |} |};
                       pdfDocument := None; currentPage := 1;
                       totalPages := 0; userData := userData (js w) |}).
    { unfold late. by rewrite parsePDF_response_success_js, resetTool_js. }
    assert (Hdata : extractedData (js late)
                    = {| assessee := a; transactions := txs;
                         processingStats :=
                           {| startTime := 0; endTime := t1;
                              pageCount := 0 |} |}).
    { by rewrite Hjs. }
    split; [by rewrite Hjs|].
    split; [by rewrite Hdata|].
    split; [unfold late; by rewrite parsePDF_response_buttons|].
    split; [unfold late; by rewrite parsePDF_response_buttons|].
    intros Htxs. destruct (confirm_out r late) as [_ ->]. rewrite Hdata.
    cbn [transactions assessee].
    destruct (_ =? 0) eqn:Hn; [by apply length_zero_iff_nil in Hn|done].
Qed.

Lemma data_only_with_a_file_witness :
  (exists file,
     selectedFile (js demoParsed) = Some file /\ pdf_named file = true)
  /\ (let late :=
        run demoStart
          [FileChosen demoFile; ParseClicked 100; ResetClicked;
           ParseAnswered 350
             (Json (UploadSuccess (VObj demoAssessee) [demoTransaction 1]))] in
      selectedFile (js late) = None
      /\ transactions (extractedData (js late)) = [demoTransaction 1]).
Proof.
  pose proof (data_only_with_a_file demoMarkup None "Mon Nov 02 2026"
           "Mon Nov 02 2026"
           [FileChosen demoFile; PdfAnswered (Some demoPdf) Rendered;
            ParseClicked 100;
            ParseAnswered 350
              (Json (UploadSuccess (VObj demoAssessee)
                       [demoTransaction 1; demoTransaction 2]))]
           (run demoStart [FileChosen demoFile; ParseClicked 100])
           350 (VObj demoAssessee) [demoTransaction 1] (HttpError 500))
    as [Hfile (Hsel & Htx & _)].
  split.
  - apply Hfile; [by vm_compute|].
    intros H%(f_equal length). vm_compute in H. discriminate H.
  - split; [exact Hsel|exact Htx].
Defined.
